(** * ALM adapters: field mapping, reconciliation, retry and registry

    A shallow embedding of [services/alm-adapters/app/services]:
    [base_adapter.py] (map_fields, retry_operation, response formatting),
    the sync and update paths of the three adapters under [adapters/], and
    [alm_factory.py].

    Conventions.
    - Python dictionaries that the code only builds, reads and tests for
      emptiness are [gmap string _]; dictionaries the code iterates over
      ([field_mapping.items()], [self.adapters.items()]) are association
      lists in insertion order.
    - A call that can raise returns [res A]; code that talks to a remote
      backend runs in the state-and-exception monad [M], whose state holds
      the backend and the trace of remote calls made so far.
    - Exceptions are instances of Python's [Exception]; [str(e)] is the
      message they carry. *)

From stdpp Require Import gmap strings list fin_maps.
From Stdlib Require Import ZArith QArith Qabs Lia Ascii.

Set Warnings "-register-all".

#[local] Open Scope string_scope.
#[local] Open Scope Z_scope.
#[local] Open Scope list_scope.

(** ** Python values *)

(** JSON-shaped values: what requirement records, payloads and remote
    fields hold.  Floats are left out. *)
Inductive pyval : Type :=
  | PNone
  | PBool (b : bool)
  | PInt (z : Z)
  | PStr (s : string)
  | PList (l : list pyval)
  | PDict (d : list (string * pyval)).

(** Truth value of an object, as tested by [if x:] and [not x]. *)
Definition truthy (v : pyval) : bool :=
  match v with
  | PNone => false
  | PBool b => b
  | PInt z => negb (z =? 0)
  | PStr s => negb (String.eqb s "")
  | PList l => match l with [] => false | _ => true end
  | PDict d => match d with [] => false | _ => true end
  end.

(** ** Exceptions and results *)

Inductive exn_class : Type :=
  | JIRAError | ClientException
  | TypeError | ValueError | AttributeError | KeyError
  | ConnectionError | ParseError | RuntimeError | OverflowError.

#[global] Instance exn_class_eq_dec : EqDecision exn_class.
Proof. solve_decision. Defined.

Record exn : Type := mkExn { exn_cls : exn_class; exn_msg : string }.

(** [str(e)] *)
Definition str_exn (e : exn) : string := exn_msg e.

Inductive res (A : Type) : Type :=
  | Ret (a : A)
  | Raise (e : exn).
Arguments Ret {A} a.
Arguments Raise {A} e.

Definition res_bind {A B} (r : res A) (k : A -> res B) : res B :=
  match r with Ret a => k a | Raise e => Raise e end.

(** [try: body  except Exception as e: handler e] *)
Definition try_except {A} (body : res A) (handler : exn -> res A) : res A :=
  match body with Ret a => Ret a | Raise e => handler e end.

Definition is_ret {A} (r : res A) : bool :=
  match r with Ret _ => true | Raise _ => false end.

(** ** base_adapter.py: map_fields *)

(** The value stored under ["transform"] in a structured mapping entry. *)
Inductive transform_entry : Type :=
  | Callable (f : pyval -> res pyval)
  | NotCallable (v : pyval).

(** A mapping target: a flat field name, or a dictionary that may hold
    ["field"] and ["transform"]. *)
Inductive target_field : Type :=
  | Flat (name : string)
  | Nested (field : option string) (transform : option transform_entry).

Abbreviation field_mapping_t := (list (string * target_field)).

(** The body of the [for source_field, target_field in field_mapping.items()]
    loop, threading [mapped_data]. *)
Fixpoint map_fields_loop (source_data : gmap string pyval)
    (field_mapping : field_mapping_t) (mapped_data : gmap string pyval)
    : res (gmap string pyval) :=
  match field_mapping with
  | [] => Ret mapped_data
  | (source_field, target) :: rest =>
    match source_data !! source_field with
    | None => map_fields_loop source_data rest mapped_data
    | Some value =>
      match target with
      | Flat name =>
        map_fields_loop source_data rest (<[name := value]> mapped_data)
      | Nested None _ => map_fields_loop source_data rest mapped_data
      | Nested (Some mapped_field) tr =>
        match tr with
        | Some (Callable transform_func) =>
          match transform_func value with
          | Ret value' =>
            map_fields_loop source_data rest
              (<[mapped_field := value']> mapped_data)
          | Raise e => Raise e
          end
        | _ =>
          map_fields_loop source_data rest
            (<[mapped_field := value]> mapped_data)
        end
      end
    end
  end.

Definition map_fields (source_data : gmap string pyval)
    (field_mapping : field_mapping_t) : res (gmap string pyval) :=
  try_except (map_fields_loop source_data field_mapping ∅)
             (fun _ => Ret ∅).

(** The field an entry writes to, when it writes at all. *)
Definition target_name (t : target_field) : option string :=
  match t with
  | Flat name => Some name
  | Nested field _ => field
  end.

(** The value an entry writes for a source value [v]. *)
Definition target_value (t : target_field) (v : pyval) : res pyval :=
  match t with
  | Nested (Some _) (Some (Callable f)) => f v
  | _ => Ret v
  end.

(** An entry whose transform raises on the record's value. *)
Definition entry_raises (source_data : gmap string pyval)
    (entry : string * target_field) : Prop :=
  exists v e, source_data !! entry.1 = Some v
    /\ is_Some (target_name entry.2)
    /\ target_value entry.2 v = Raise e.

(** ** base_adapter.py: retry_operation *)













(** ** base_adapter.py: response envelopes *)

(** Response dictionaries, as the code builds them. *)
Abbreviation envelope := (gmap string pyval).

(** [format_error_response(error)] (no [details]) *)
Definition format_error_response (name : string) (error : string) : envelope :=
  {["success" := PBool false; "error" := PStr error; "adapter" := PStr name]}.

(** [format_success_response(data)] (no [message]): the keys of a non-empty
    [data] are written over the response by [response.update(data)]. *)
Definition format_success_response (name : string) (data : envelope)
    : envelope :=
  let response : envelope :=
    {["success" := PBool true; "adapter" := PStr name]} in
  if decide (data = ∅) then response else data ∪ response.

(** [d.get(key, default)] *)
Definition dict_get (d : gmap string pyval) (key : string) (default : pyval)
    : pyval :=
  match d !! key with Some v => v | None => default end.

(** ** alm_factory.py *)

(** Objects a subscript can be applied to: a dictionary, or the coroutine
    object that calling an [async def] method without [await] produces. *)
Inductive pyobj : Type :=
  | ObjDict (d : gmap string pyval)
  | ObjCoroutine (body : res (gmap string pyval)).

(** [obj[key]] *)
Definition subscript (obj : pyobj) (key : string) : res pyval :=
  match obj with
  | ObjDict d =>
    match d !! key with
    | Some v => Ret v
    | None => Raise (mkExn KeyError key)
    end
  | ObjCoroutine _ =>
    Raise (mkExn TypeError "'coroutine' object is not subscriptable")
  end.

(** The adapter interface [BaseALMAdapter] as the factory uses it.  [Obj]
    is the type of adapter instances; an instance carries its own client
    and session, so a method acts on the instance it is called on and
    returns it as the call left it.  [construct alm_type config] is the
    constructor the factory picks for [alm_type].  All methods are
    [async def]; [get_info_body] is the body of [get_info]. *)
Record AdapterOps (Obj : Type) : Type := {
  construct : string -> gmap string pyval -> res Obj;
  initialize : Obj -> res bool * Obj;
  test_connection : Obj -> res envelope * Obj;
  health_check : Obj -> res (gmap string pyval) * Obj;
  get_info_body : Obj -> res (gmap string pyval);
}.
Arguments construct {Obj} _ _ _.
Arguments initialize {Obj} _ _.
Arguments test_connection {Obj} _ _.
Arguments health_check {Obj} _ _.
Arguments get_info_body {Obj} _ _.

(** [adapter.get_info()], not awaited *)
Definition get_info {Obj} (ops : AdapterOps Obj) (adapter : Obj) : pyobj :=
  ObjCoroutine (get_info_body ops adapter).

(** A dictionary in insertion order: [d[key] = value] replaces the value of
    an existing key in place and appends a new key. *)
Fixpoint dict_set {V : Type} (d : list (string * V)) (key : string) (value : V)
    : list (string * V) :=
  match d with
  | [] => [(key, value)]
  | (k, v) :: rest =>
    if String.eqb k key then (k, value) :: rest
    else (k, v) :: dict_set rest key value
  end.

Fixpoint dict_lookup {V : Type} (d : list (string * V)) (key : string)
    : option V :=
  match d with
  | [] => None
  | (k, v) :: rest => if String.eqb k key then Some v else dict_lookup rest key
  end.

Record ALMFactory (Obj : Type) : Type := mkFactory {
  configurations : gmap string (gmap string pyval);
  adapters : list (string * Obj);
}.
Arguments mkFactory {Obj} _ _.
Arguments configurations {Obj} _.
Arguments adapters {Obj} _.

(** One of the three blocks of [_initialize_adapters]: construct the
    adapter of a configured tool, await its [initialize()] (the boolean it
    returns is not used) and register it. *)
Definition initialize_adapter {Obj} (ops : AdapterOps Obj) (alm_type : string)
    (f : ALMFactory Obj) : res unit * ALMFactory Obj :=
  match configurations f !! alm_type with
  | None => (Ret tt, f)
  | Some config =>
    match construct ops alm_type config with
    | Raise e => (Raise e, f)
    | Ret adapter =>
      match initialize ops adapter with
      | (Raise e, _) => (Raise e, f)
      | (Ret _, adapter') =>
        (Ret tt, mkFactory (configurations f)
                           (dict_set (adapters f) alm_type adapter'))
      end
    end
  end.

(** [_initialize_adapters]: the handler logs and re-raises. *)
Definition _initialize_adapters {Obj} (ops : AdapterOps Obj)
    (f : ALMFactory Obj) : res unit * ALMFactory Obj :=
  match initialize_adapter ops "jira" f with
  | (Raise e, f1) => (Raise e, f1)
  | (Ret _, f1) =>
    match initialize_adapter ops "azure_devops" f1 with
    | (Raise e, f2) => (Raise e, f2)
    | (Ret _, f2) => initialize_adapter ops "polarion" f2
    end
  end.

(** [str.lower()] on ASCII letters *)
Definition ascii_lower (c : ascii) : ascii :=
  let n := nat_of_ascii c in
  if ((65 <=? n) && (n <=? 90))%nat then ascii_of_nat (n + 32) else c.

Fixpoint lower (s : string) : string :=
  match s with
  | EmptyString => EmptyString
  | String c rest => String (ascii_lower c) (lower rest)
  end.

(** [get_adapter]: [self.adapters.get(alm_type.lower())] *)
Definition get_adapter {Obj} (f : ALMFactory Obj) (alm_type : string)
    : option Obj :=
  dict_lookup (adapters f) (lower alm_type).

(** The dictionary comprehension of [get_available_adapters]. *)
Fixpoint available_names {Obj} (ops : AdapterOps Obj)
    (items : list (string * Obj)) (acc : list (string * pyval))
    : res (list (string * pyval)) :=
  match items with
  | [] => Ret acc
  | (alm_type, adapter) :: rest =>
    match subscript (get_info ops adapter) "name" with
    | Raise e => Raise e
    | Ret name => available_names ops rest (dict_set acc alm_type name)
    end
  end.

Definition get_available_adapters {Obj} (ops : AdapterOps Obj)
    (f : ALMFactory Obj) : res (list (string * pyval)) :=
  available_names ops (adapters f) [].

(** The factory's own error envelope. *)
Definition adapter_not_available (alm_type : string) : envelope :=
  {["success" := PBool false;
    "error" := PStr ("Adapter for " +:+ alm_type +:+ " not available")]}.

(** [ALMFactory.test_connection] *)
Definition factory_test_connection {Obj} (ops : AdapterOps Obj)
    (f : ALMFactory Obj) (alm_type : string) : res envelope * ALMFactory Obj :=
  match get_adapter f alm_type with
  | None => (Ret (adapter_not_available alm_type), f)
  | Some adapter =>
    match test_connection ops adapter with
    | (Ret result, adapter') =>
      (Ret result,
       mkFactory (configurations f)
                 (dict_set (adapters f) (lower alm_type) adapter'))
    | (Raise e, adapter') =>
      (Ret {["success" := PBool false; "error" := PStr (str_exn e)]},
       mkFactory (configurations f)
                 (dict_set (adapters f) (lower alm_type) adapter'))
    end
  end.

(** The dictionary built by [get_health_status]. *)
Record health_status : Type := mkHealth {
  overall_healthy : bool;
  adapters_health : gmap string (gmap string pyval);
}.

(** One iteration of the loop of [get_health_status]. *)
Definition health_step {Obj} (ops : AdapterOps Obj) (alm_type : string)
    (adapter : Obj) (hs : health_status) : health_status :=
  match (health_check ops adapter).1 with
  | Ret adapter_health =>
    mkHealth
      (if truthy (dict_get adapter_health "healthy" (PBool false))
       then overall_healthy hs else false)
      (<[alm_type := adapter_health]> (adapters_health hs))
  | Raise e =>
    mkHealth false
      (<[alm_type := {["healthy" := PBool false;
                       "error" := PStr (str_exn e)]}]> (adapters_health hs))
  end.

Fixpoint health_loop {Obj} (ops : AdapterOps Obj)
    (items : list (string * Obj)) (hs : health_status) : health_status :=
  match items with
  | [] => hs
  | (alm_type, adapter) :: rest =>
    health_loop ops rest (health_step ops alm_type adapter hs)
  end.

(** [get_health_status].  Every statement that can raise sits inside the
    inner [try], so the outer handler is never entered. *)
Definition get_health_status {Obj} (ops : AdapterOps Obj)
    (f : ALMFactory Obj) : res health_status :=
  Ret (health_loop ops (adapters f) (mkHealth true ∅)).

(** An adapter's health check reports healthy: it returns a dictionary
    whose ["healthy"] entry is true. *)
Definition reports_healthy {Obj} (ops : AdapterOps Obj) (adapter : Obj)
    : bool :=
  match (health_check ops adapter).1 with
  | Ret d => truthy (dict_get d "healthy" (PBool false))
  | Raise _ => false
  end.

(** ** Python operations used by the adapters *)

(** [a == b].  Booleans compare as the integers 0 and 1; dictionaries
    compare by their entries, whatever their order. *)
Fixpoint py_eq (a b : pyval) {struct a} : bool :=
  match a, b with
  | PNone, PNone => true
  | PBool x, PBool y => Bool.eqb x y
  | PBool x, PInt y => (if x then 1 else 0) =? y
  | PInt x, PBool y => x =? (if y then 1 else 0)
  | PInt x, PInt y => x =? y
  | PStr x, PStr y => String.eqb x y
  | PList x, PList y =>
    (fix go (l1 l2 : list pyval) {struct l1} : bool :=
       match l1, l2 with
       | [], [] => true
       | u :: l1', v :: l2' => py_eq u v && go l1' l2'
       | _, _ => false
       end) x y
  | PDict x, PDict y =>
    (length x =? length y)%nat &&
    (fix all (d : list (string * pyval)) {struct d} : bool :=
       match d with
       | [] => true
       | (k, v) :: d' =>
         (fix find (d2 : list (string * pyval)) {struct d2} : bool :=
            match d2 with
            | [] => false
            | (k2, v2) :: d2' =>
              if String.eqb k k2 then py_eq v v2 else find d2'
            end) y
         && all d'
       end) x
  | _, _ => false
  end.

(** [v[:100]]: strings and lists are cut to their first hundred items;
    nothing else can be sliced. *)
Definition slice100 (v : pyval) : res pyval :=
  match v with
  | PStr s => Ret (PStr (String.substring 0 100 s))
  | PList l => Ret (PList (take 100 l))
  | PNone => Raise (mkExn TypeError "'NoneType' object is not subscriptable")
  | PBool _ => Raise (mkExn TypeError "'bool' object is not subscriptable")
  | PInt _ => Raise (mkExn TypeError "'int' object is not subscriptable")
  | PDict _ => Raise (mkExn TypeError "unhashable type: 'slice'")
  end.

(** [requirement.get("title", requirement.get("text", "")[:100])]: the
    default is evaluated, and may raise, whether or not the title is
    there. *)
Definition title_or_text (requirement : gmap string pyval) : res pyval :=
  res_bind (slice100 (dict_get requirement "text" (PStr "")))
           (fun default => Ret (dict_get requirement "title" default)).

(** ** Remote calls *)

(** Code that talks to a backend: a state transformer that may raise.  The
    state keeps what an exception leaves behind. *)
Definition M (S A : Type) : Type := S -> res A * S.

Definition mret {S A} (a : A) : M S A := fun st => (Ret a, st).

Definition mraise {S A} (e : exn) : M S A := fun st => (Raise e, st).

Definition mbind {S A B} (m : M S A) (k : A -> M S B) : M S B :=
  fun st =>
    match m st with
    | (Ret a, st') => k a st'
    | (Raise e, st') => (Raise e, st')
    end.

Definition mlift {S A} (r : res A) : M S A := fun st => (r, st).

Notation "x <- m ;; k" := (mbind m (fun x => k))
  (at level 100, m at next level, right associativity).

(** [try: body  except cls as e: handler e] *)
Definition catch_class {S A} (cls : exn_class) (body : M S A)
    (handler : exn -> M S A) : M S A :=
  fun st =>
    match body st with
    | (Ret a, st') => (Ret a, st')
    | (Raise e, st') =>
      if decide (exn_cls e = cls) then handler e st' else (Raise e, st')
    end.

(** [try: body  except Exception as e: handler e] *)
Definition catch_all {S A} (body : M S A) (handler : exn -> M S A) : M S A :=
  fun st =>
    match body st with
    | (Ret a, st') => (Ret a, st')
    | (Raise e, st') => handler e st'
    end.

(** A call to the backend: the backend [W] answers and moves on, and the
    call is appended to the trace. *)
Definition remote {W E A} (call : E) (answer : W -> res A * W)
    : M (W * list E) A :=
  fun st =>
    let '(r, w') := answer st.1 in (r, (w', st.2 ++ [call])).

(** ** The batch loop shared by the three [sync_project] methods *)

(** The dictionary a per-record sync returns, by its shape:
    [{"success": True, "created": True, ...}],
    [{"success": True, "created": False, ...}], or
    [{"success": False, "error": ...}]; [details] holds the other
    entries.  Lists of dictionary keys are given in the order of
    [elements], which need not be the insertion order. *)
Inductive item_result : Type :=
  | ItemCreated (details : gmap string pyval)
  | ItemUpdated (details : gmap string pyval)
  | ItemFailed (error : string).

(** [sync_results] *)
Record SyncResult : Type := mkSync {
  synced_items : Z;
  created_items : Z;
  updated_items : Z;
  errors : list (pyval * pyval);
}.

Definition empty_sync : SyncResult := mkSync 0 0 0 [].

(** The error entry [{"req_id": requirement.get("req_id"), "error": msg}],
    as the pair of its values. *)
Definition error_entry (requirement : gmap string pyval) (msg : string)
    : pyval * pyval :=
  (dict_get requirement "req_id" PNone, PStr msg).

(** What one iteration of the loop does to [sync_results], given how the
    per-record sync ended. *)
Definition tally (requirement : gmap string pyval) (r : res item_result)
    (acc : SyncResult) : SyncResult :=
  match r with
  | Ret (ItemCreated _) =>
    mkSync (synced_items acc + 1) (created_items acc + 1)
           (updated_items acc) (errors acc)
  | Ret (ItemUpdated _) =>
    mkSync (synced_items acc + 1) (created_items acc)
           (updated_items acc + 1) (errors acc)
  | Ret (ItemFailed error) =>
    mkSync (synced_items acc) (created_items acc) (updated_items acc)
           (errors acc ++ [error_entry requirement error])
  | Raise e =>
    mkSync (synced_items acc) (created_items acc) (updated_items acc)
           (errors acc ++ [error_entry requirement (str_exn e)])
  end.

(** [for requirement in requirements: try: ... except Exception: ...] *)
Fixpoint sync_loop {S} (sync_one : gmap string pyval -> M S item_result)
    (requirements : list (gmap string pyval)) (acc : SyncResult)
    : M S SyncResult :=
  fun st =>
    match requirements with
    | [] => (Ret acc, st)
    | requirement :: rest =>
      let '(r, st') := sync_one requirement st in
      sync_loop sync_one rest (tally requirement r acc) st'
    end.

(** [sync_results] as the dictionary it is. *)
Definition sync_results_dict (r : SyncResult) : envelope :=
  {["synced_items" := PInt (synced_items r);
    "created_items" := PInt (created_items r);
    "updated_items" := PInt (updated_items r);
    "errors" := PList (map (fun entry : pyval * pyval =>
                              PDict [("req_id", entry.1); ("error", entry.2)])
                           (errors r))]}.

(** What a sync call reads from [sync_config]: the target project (under
    ["jira_project_key"], ["ado_project"] or ["polarion_project"], [None]
    when absent), the item type (under ["issue_type"] or
    ["work_item_type"]) when given, the field mapping and the records. *)
Record sync_config : Type := mkConfig {
  cfg_project : pyval;
  cfg_item_type : option pyval;
  cfg_field_mapping : list (string * string);
  cfg_requirements : list (gmap string pyval);
}.

(** Whether every record of a batch syncs successfully, run in order from a
    given state, and the state the batch leaves. *)
Fixpoint all_succeed {S} (sync_one : gmap string pyval -> M S item_result)
    (requirements : list (gmap string pyval)) (st : S) : bool * S :=
  match requirements with
  | [] => (true, st)
  | requirement :: rest =>
    let '(r, st') := sync_one requirement st in
    let '(ok, st'') := all_succeed sync_one rest st' in
    (match r with
     | Ret (ItemCreated _) | Ret (ItemUpdated _) => ok
     | _ => false
     end, st'')
  end.

(** A per-record create call fails: it returns an error result, or it
    raises; [msg] is the error it reports. *)
Definition fails_with {S} (out : res item_result * S) (msg : string) (st : S)
    : Prop :=
  out = (Ret (ItemFailed msg), st)
  \/ exists e, out = (Raise e, st) /\ msg = str_exn e.

(** The loop [for req_field, target in field_mapping.items(): if req_field
    in requirement: ...] of the create paths, which writes the record's
    value under the mapped field. *)
Fixpoint add_custom_fields (requirement : gmap string pyval)
    (field_mapping : list (string * string)) (data : gmap string pyval)
    : gmap string pyval :=
  match field_mapping with
  | [] => data
  | (req_field, target) :: rest =>
    match requirement !! req_field with
    | Some v => add_custom_fields requirement rest (<[target := v]> data)
    | None => add_custom_fields requirement rest data
    end
  end.

(** ** adapters/jira_adapter.py *)

Module Jira.

(** What [jira_client.issue(key)] returns: the issue and the attributes of
    its [fields]. *)
Record Issue : Type := mkIssue {
  issue_key : pyval;
  issue_fields : gmap string pyval;
}.

(** What [jira_client.create_issue] returns. *)
Record NewIssue : Type := mkNewIssue {
  new_key : pyval;
  new_id : pyval;
}.

(** The Jira client library over a backend [W]. *)
Record Client (W : Type) : Type := {
  project : pyval -> W -> res unit * W;
  issue : pyval -> W -> res Issue * W;
  create_issue : gmap string pyval -> W -> res NewIssue * W;
  issue_update : Issue -> gmap string pyval -> W -> res unit * W;
}.
Arguments project {W} _ _ _.
Arguments issue {W} _ _ _.
Arguments create_issue {W} _ _ _.
Arguments issue_update {W} _ _ _ _.

(** Calls to the backend. *)
Inductive call : Type :=
  | CallProject (key : pyval)
  | CallIssue (key : pyval)
  | CallCreateIssue (fields : gmap string pyval)
  | CallIssueUpdate (key : pyval) (fields : gmap string pyval).

(** [self.name] *)
Definition name : string := "JiraAdapter".

(** The [issue_data] of [_create_jira_issue]. *)
Definition issue_data (project_key : pyval) (requirement : gmap string pyval)
    (cfg : sync_config) : res (gmap string pyval) :=
  res_bind (title_or_text requirement) (fun summary =>
  Ret (add_custom_fields requirement (cfg_field_mapping cfg)
         {["project" := PDict [("key", project_key)];
           "summary" := summary;
           "description" := dict_get requirement "text" (PStr "");
           "issuetype" :=
             PDict [("name", default (PStr "Story") (cfg_item_type cfg))]]})).

Definition _create_jira_issue {W} (client : Client W) (project_key : pyval)
    (requirement : gmap string pyval) (cfg : sync_config)
    : M (W * list call) item_result :=
  catch_class JIRAError
    (fields <- mlift (issue_data project_key requirement cfg) ;;
     new_issue <- remote (CallCreateIssue fields) (create_issue client fields) ;;
     mret (ItemCreated {["issue_key" := new_key new_issue;
                         "issue_id" := new_id new_issue]}))
    (fun e => mret (ItemFailed (str_exn e))).

(** [issue.fields.<name>]: reading an attribute that is not there raises. *)
Definition field_attr (i : Issue) (attr : string) : res pyval :=
  match issue_fields i !! attr with
  | Some v => Ret v
  | None =>
    Raise (mkExn AttributeError
             ("type object 'PropertyHolder' has no attribute '"
              +:+ attr +:+ "'"))
  end.

(** The custom-field loop of [_update_jira_issue]:
    [getattr(issue.fields, jira_field, None)] against the record's value. *)
Fixpoint changed_custom_fields (i : Issue) (requirement : gmap string pyval)
    (field_mapping : list (string * string)) (update_data : gmap string pyval)
    : gmap string pyval :=
  match field_mapping with
  | [] => update_data
  | (req_field, jira_field) :: rest =>
    match requirement !! req_field with
    | Some new_value =>
      let current_value := dict_get (issue_fields i) jira_field PNone in
      if py_eq current_value new_value
      then changed_custom_fields i requirement rest update_data
      else changed_custom_fields i requirement rest
             (<[jira_field := new_value]> update_data)
    | None => changed_custom_fields i requirement rest update_data
    end
  end.

(** The [update_data] of [_update_jira_issue]: the mapped fields whose new
    value differs from the fetched issue's. *)
Definition update_data (i : Issue) (requirement : gmap string pyval)
    (cfg : sync_config) : res (gmap string pyval) :=
  res_bind (title_or_text requirement) (fun new_summary =>
  res_bind (field_attr i "summary") (fun summary =>
  let d1 : gmap string pyval :=
    if py_eq summary new_summary then ∅
    else {["summary" := new_summary]} in
  let new_description := dict_get requirement "text" (PStr "") in
  res_bind (field_attr i "description") (fun description =>
  let d2 := if py_eq description new_description then d1
            else <["description" := new_description]> d1 in
  Ret (changed_custom_fields i requirement (cfg_field_mapping cfg) d2)))).

Definition _update_jira_issue {W} (client : Client W) (key : pyval)
    (requirement : gmap string pyval) (cfg : sync_config)
    : M (W * list call) item_result :=
  catch_class JIRAError
    (i <- remote (CallIssue key) (issue client key) ;;
     changes <- mlift (update_data i requirement cfg) ;;
     _ <- (if decide (changes = ∅) then mret tt
           else remote (CallIssueUpdate key changes)
                       (issue_update client i changes)) ;;
     mret (ItemUpdated
             {["issue_key" := key;
               "updated_fields" := PList (PStr <$> elements (dom changes))]}))
    (fun e => mret (ItemFailed (str_exn e))).

Definition _sync_requirement_to_issue {W} (client : Client W)
    (project_key : pyval) (cfg : sync_config)
    (requirement : gmap string pyval) : M (W * list call) item_result :=
  catch_all
    (let jira_issue_key := dict_get requirement "jira_issue_key" PNone in
     if truthy jira_issue_key
     then _update_jira_issue client jira_issue_key requirement cfg
     else _create_jira_issue client project_key requirement cfg)
    (fun e => mret (ItemFailed (str_exn e))).

(** [sync_project].  [client] is [self.jira_client], [None] before a
    successful connection. *)
Definition sync_project {W} (client : option (Client W)) (project_id : string)
    (cfg : sync_config) : M (W * list call) envelope :=
  catch_all
    (match client with
     | None => mret (format_error_response name "Jira client not initialized")
     | Some client =>
       let jira_project_key := cfg_project cfg in
       if negb (truthy jira_project_key)
       then mret (format_error_response name
                    "Jira project key not specified in sync config")
       else
         found <- catch_class JIRAError
           (_ <- remote (CallProject jira_project_key)
                        (project client jira_project_key) ;;
            mret (None : option envelope))
           (fun e => mret (Some (format_error_response name
                        ("Jira project not found: " +:+ str_exn e)))) ;;
         match found with
         | Some error => mret error
         | None =>
           sync_results <-
             sync_loop (_sync_requirement_to_issue client jira_project_key cfg)
                       (cfg_requirements cfg) empty_sync ;;
           mret (format_success_response name (sync_results_dict sync_results))
         end
     end)
    (fun e => mret (format_error_response name
                      ("Project sync failed: " +:+ str_exn e))).

(** [update_item]; [field_mapping] is
    [project_config.get("field_mapping", {})]. *)
Definition update_item {W} (client : option (Client W)) (item_id : string)
    (item_data : gmap string pyval) (field_mapping : field_mapping_t)
    : M (W * list call) envelope :=
  catch_class JIRAError
    (match client with
     | None => mret (format_error_response name "Jira client not initialized")
     | Some client =>
       i <- remote (CallIssue (PStr item_id)) (issue client (PStr item_id)) ;;
       mapped_data <- mlift (map_fields item_data field_mapping) ;;
       _ <- remote (CallIssueUpdate (PStr item_id) mapped_data)
                   (issue_update client i mapped_data) ;;
       mret (format_success_response name
               {["item_id" := PStr item_id;
                 "updated_fields" :=
                   PList (PStr <$> elements (dom mapped_data))]})
     end)
    (fun e => mret (format_error_response name
                      ("Failed to update item: " +:+ str_exn e))).

End Jira.

(** ** [int(s)] on a string *)

Definition is_space (c : ascii) : bool :=
  let n := nat_of_ascii c in ((n =? 32) || ((9 <=? n) && (n <=? 13)))%nat.

Definition digit_value (c : ascii) : option Z :=
  let n := nat_of_ascii c in
  if ((48 <=? n) && (n <=? 57))%nat then Some (Z.of_nat (n - 48)) else None.

(** Decimal digits, single underscores allowed between digits. *)
Fixpoint digits_value (l : list ascii) (acc : Z) (after_digit : bool)
    : option Z :=
  match l with
  | [] => if after_digit then Some acc else None
  | c :: rest =>
    match digit_value c with
    | Some d => digits_value rest (10 * acc + d) true
    | None =>
      if ((nat_of_ascii c =? 95)%nat && after_digit)%bool
      then digits_value rest acc false
      else None
    end
  end.

Fixpoint drop_spaces (l : list ascii) : list ascii :=
  match l with
  | c :: rest => if is_space c then drop_spaces rest else l
  | [] => []
  end.

Definition strip (l : list ascii) : list ascii :=
  rev (drop_spaces (rev (drop_spaces l))).

(** [int(s)] for ASCII decimal literals: surrounding whitespace and a sign
    are accepted. *)
Definition py_int (s : string) : res Z :=
  let parsed :=
    match strip (String.list_ascii_of_string s) with
    | c :: rest =>
      if (nat_of_ascii c =? 45)%nat then Z.opp <$> digits_value rest 0 false
      else if (nat_of_ascii c =? 43)%nat then digits_value rest 0 false
      else digits_value (c :: rest) 0 false
    | [] => None
    end in
  match parsed with
  | Some z => Ret z
  | None =>
    Raise (mkExn ValueError
             ("invalid literal for int() with base 10: '" +:+ s +:+ "'"))
  end.

(** ** adapters/azure_devops_adapter.py *)

Module AzureDevOps.

Record WorkItem : Type := mkWorkItem {
  wi_id : pyval;
  wi_url : pyval;
  wi_fields : gmap string pyval;
}.

Record JsonPatchOperation : Type := mkPatch {
  op : string;
  path : string;
  value : pyval;
}.

(** [self.core_client] *)
Record CoreClient (W : Type) : Type := {
  get_project : pyval -> W -> res unit * W;
}.
Arguments get_project {W} _ _ _.

(** [self.wit_client] *)
Record WitClient (W : Type) : Type := {
  get_work_item : pyval -> W -> res WorkItem * W;
  create_work_item :
    list JsonPatchOperation -> pyval -> pyval -> W -> res WorkItem * W;
  update_work_item :
    list JsonPatchOperation -> pyval -> W -> res WorkItem * W;
}.
Arguments get_work_item {W} _ _ _.
Arguments create_work_item {W} _ _ _ _ _.
Arguments update_work_item {W} _ _ _ _.

Inductive call : Type :=
  | CallGetProject (project : pyval)
  | CallGetWorkItem (id : pyval)
  | CallCreateWorkItem (document : list JsonPatchOperation)
                       (project : pyval) (type : pyval)
  | CallUpdateWorkItem (document : list JsonPatchOperation) (id : pyval).

Definition name : string := "AzureDevOpsAdapter".

(** The custom-field loop of [_create_work_item]. *)
Fixpoint custom_add_ops (requirement : gmap string pyval)
    (field_mapping : list (string * string)) : list JsonPatchOperation :=
  match field_mapping with
  | [] => []
  | (req_field, ado_field) :: rest =>
    match requirement !! req_field with
    | Some v =>
      mkPatch "add" ("/fields/" +:+ ado_field) v
        :: custom_add_ops requirement rest
    | None => custom_add_ops requirement rest
    end
  end.

(** The [patch_ops] of [_create_work_item]. *)
Definition create_ops (requirement : gmap string pyval) (cfg : sync_config)
    : res (list JsonPatchOperation) :=
  res_bind (title_or_text requirement) (fun title =>
  Ret ([mkPatch "add" "/fields/System.Title" title;
        mkPatch "add" "/fields/System.Description"
                (dict_get requirement "text" (PStr ""))]
       ++ custom_add_ops requirement (cfg_field_mapping cfg))).

Definition _create_work_item {W} (wit : WitClient W) (project : pyval)
    (requirement : gmap string pyval) (cfg : sync_config)
    : M (W * list call) item_result :=
  catch_class ClientException
    (let work_item_type := default (PStr "User Story") (cfg_item_type cfg) in
     patch_ops <- mlift (create_ops requirement cfg) ;;
     work_item <- remote (CallCreateWorkItem patch_ops project work_item_type)
                    (create_work_item wit patch_ops project work_item_type) ;;
     mret (ItemCreated {["work_item_id" := wi_id work_item;
                         "work_item_url" := wi_url work_item]}))
    (fun e => mret (ItemFailed (str_exn e))).

(** The custom-field loop of [_update_work_item]. *)
Fixpoint custom_replace_ops (work_item : WorkItem)
    (requirement : gmap string pyval)
    (field_mapping : list (string * string)) : list JsonPatchOperation :=
  match field_mapping with
  | [] => []
  | (req_field, ado_field) :: rest =>
    match requirement !! req_field with
    | Some new_value =>
      let current_value := dict_get (wi_fields work_item) ado_field PNone in
      if py_eq current_value new_value
      then custom_replace_ops work_item requirement rest
      else mkPatch "replace" ("/fields/" +:+ ado_field) new_value
             :: custom_replace_ops work_item requirement rest
    | None => custom_replace_ops work_item requirement rest
    end
  end.

(** The [patch_ops] of [_update_work_item]. *)
Definition update_ops (work_item : WorkItem)
    (requirement : gmap string pyval) (cfg : sync_config)
    : res (list JsonPatchOperation) :=
  res_bind (title_or_text requirement) (fun new_title =>
  let current_title :=
    dict_get (wi_fields work_item) "System.Title" (PStr "") in
  let new_description := dict_get requirement "text" (PStr "") in
  let current_description :=
    dict_get (wi_fields work_item) "System.Description" (PStr "") in
  Ret ((if py_eq current_title new_title then []
        else [mkPatch "replace" "/fields/System.Title" new_title])
       ++ (if py_eq current_description new_description then []
           else [mkPatch "replace" "/fields/System.Description"
                         new_description])
       ++ custom_replace_ops work_item requirement (cfg_field_mapping cfg))).

Definition _update_work_item {W} (wit : WitClient W) (work_item_id : pyval)
    (requirement : gmap string pyval) (cfg : sync_config)
    : M (W * list call) item_result :=
  catch_class ClientException
    (work_item <- remote (CallGetWorkItem work_item_id)
                    (get_work_item wit work_item_id) ;;
     patch_ops <- mlift (update_ops work_item requirement cfg) ;;
     _ <- match patch_ops with
          | [] => mret tt
          | _ :: _ =>
            _ <- remote (CallUpdateWorkItem patch_ops work_item_id)
                   (update_work_item wit patch_ops work_item_id) ;;
            mret tt
          end ;;
     mret (ItemUpdated
             {["work_item_id" := work_item_id;
               "updated_fields" := PInt (Z.of_nat (length patch_ops))]}))
    (fun e => mret (ItemFailed (str_exn e))).

Definition _sync_requirement_to_work_item {W} (wit : WitClient W)
    (project : pyval) (cfg : sync_config)
    (requirement : gmap string pyval) : M (W * list call) item_result :=
  catch_all
    (let ado_work_item_id := dict_get requirement "ado_work_item_id" PNone in
     if truthy ado_work_item_id
     then _update_work_item wit ado_work_item_id requirement cfg
     else _create_work_item wit project requirement cfg)
    (fun e => mret (ItemFailed (str_exn e))).

(** [sync_project]; [wit] and [core] are [self.wit_client] and
    [self.core_client]. *)
Definition sync_project {W} (wit : option (WitClient W))
    (core : option (CoreClient W)) (project_id : string) (cfg : sync_config)
    : M (W * list call) envelope :=
  catch_all
    (match wit with
     | None =>
       mret (format_error_response name "Azure DevOps client not initialized")
     | Some wit =>
       let ado_project := cfg_project cfg in
       if negb (truthy ado_project)
       then mret (format_error_response name
                    "Azure DevOps project not specified in sync config")
       else
         found <- catch_class ClientException
           (match core with
            | None =>
              mraise (mkExn AttributeError
                "'NoneType' object has no attribute 'get_project'")
            | Some core =>
              _ <- remote (CallGetProject ado_project)
                          (get_project core ado_project) ;;
              mret (None : option envelope)
            end)
           (fun e => mret (Some (format_error_response name
                        ("Azure DevOps project not found: " +:+ str_exn e)))) ;;
         match found with
         | Some error => mret error
         | None =>
           sync_results <-
             sync_loop (_sync_requirement_to_work_item wit ado_project cfg)
                       (cfg_requirements cfg) empty_sync ;;
           mret (format_success_response name (sync_results_dict sync_results))
         end
     end)
    (fun e => mret (format_error_response name
                      ("Project sync failed: " +:+ str_exn e))).

(** [update_item]; [field_mapping] is
    [project_config.get("field_mapping", {})].  The arguments of
    [update_work_item], among them [int(item_id)], are evaluated before the
    call is made. *)
Definition update_item {W} (wit : option (WitClient W)) (item_id : string)
    (item_data : gmap string pyval) (field_mapping : field_mapping_t)
    : M (W * list call) envelope :=
  catch_class ClientException
    (match wit with
     | None =>
       mret (format_error_response name "Azure DevOps client not initialized")
     | Some wit =>
       mapped_data <- mlift (map_fields item_data field_mapping) ;;
       let patch_ops :=
         (fun item : string * pyval =>
            mkPatch "replace" ("/fields/" +:+ item.1) item.2)
         <$> map_to_list mapped_data in
       id <- mlift (py_int item_id) ;;
       _ <- remote (CallUpdateWorkItem patch_ops (PInt id))
                   (update_work_item wit patch_ops (PInt id)) ;;
       mret (format_success_response name
               {["item_id" := PStr item_id;
                 "updated_fields" := PInt (Z.of_nat (length patch_ops))]})
     end)
    (fun e => mret (format_error_response name
                      ("Failed to update item: " +:+ str_exn e))).

End AzureDevOps.

(** ** adapters/polarion_adapter.py *)

Module Polarion.

(** What the HTTP client returns. *)
Record Response : Type := mkResponse {
  status_code : Z;
  text : string;
}.

(** A SOAP request: the service URL (the configured server and the service
    path), the operation, the session header and the values interpolated
    into the body, in their order. *)
Record Request : Type := mkRequest {
  server_url : pyval;
  service_path : string;
  operation : string;
  session_header : pyval;
  body : list (string * pyval);
}.

(** [self.http_client] over a backend [W]. *)
Record Client (W : Type) : Type := {
  post : Request -> W -> res Response * W;
}.
Arguments post {W} _ _ _.

Inductive call : Type :=
  | CallPost (request : Request).

(** The adapter instance: configuration, session and the XML library call
    [ET.fromstring(text).find(".//{ns}tag")], which raises on malformed
    text, finds nothing ([None]) or finds an element with its text. *)
Record Adapter : Type := mkAdapter {
  config : gmap string pyval;
  session_id : pyval;
  xml_find_text : string -> string -> res (option pyval);
}.

Definition name : string := "PolarionAdapter".

Definition tracker_path : string := "/polarion/ws/services/TrackerWebService".

(** [self.config["server_url"]] *)
Definition config_server_url (a : Adapter) : res pyval :=
  match config a !! "server_url" with
  | Some v => Ret v
  | None => Raise (mkExn KeyError "'server_url'")
  end.

(** [s.split("/")[-1]] *)
Fixpoint last_segment_from (s : string) (current : string) : string :=
  match s with
  | EmptyString => current
  | String c rest =>
    if (nat_of_ascii c =? 47)%nat then last_segment_from rest EmptyString
    else last_segment_from rest (current +:+ String c EmptyString)
  end.

Definition last_segment (s : string) : string :=
  last_segment_from s EmptyString.

(** [work_item_uri.split("/")[-1] if work_item_uri else None] *)
Definition work_item_id_of (work_item_uri : pyval) : pyval :=
  match work_item_uri with
  | PStr s => if truthy work_item_uri then PStr (last_segment s) else PNone
  | _ => PNone
  end.

(** The request built by [_create_polarion_work_item]. *)
Definition create_request (a : Adapter) (project : pyval)
    (requirement : gmap string pyval) (work_item_type : pyval)
    : res Request :=
  res_bind (title_or_text requirement) (fun title =>
  res_bind (config_server_url a) (fun url =>
  Ret (mkRequest url tracker_path "createWorkItem" (session_id a)
         [("projectId", project); ("type", work_item_type);
          ("title", title);
          ("description", dict_get requirement "text" (PStr ""))]))).

(** [work_item_type] is [sync_config.get("work_item_type",
    "requirement")]. *)
Definition _create_polarion_work_item {W} (a : Adapter) (client : Client W)
    (project : pyval) (requirement : gmap string pyval)
    (work_item_type : pyval) : M (W * list call) item_result :=
  catch_all
    (request <- mlift (create_request a project requirement work_item_type) ;;
     response <- remote (CallPost request) (post client request) ;;
     if status_code response =? 200 then
       found <- mlift (xml_find_text a "createWorkItemReturn"
                                     (text response)) ;;
       match found with
       | Some work_item_uri =>
         mret (ItemCreated {["work_item_id" := work_item_id_of work_item_uri;
                             "work_item_uri" := work_item_uri]})
       | None => mret (ItemFailed "Failed to create work item")
       end
     else mret (ItemFailed "Failed to create work item"))
    (fun e => mret (ItemFailed (str_exn e))).

(** The request built by [_update_polarion_work_item]. *)
Definition update_request (a : Adapter) (work_item_id : pyval)
    (requirement : gmap string pyval) : res Request :=
  res_bind (title_or_text requirement) (fun title =>
  res_bind (config_server_url a) (fun url =>
  Ret (mkRequest url tracker_path "updateWorkItem" (session_id a)
         [("workItemURI", work_item_id); ("title", title);
          ("description", dict_get requirement "text" (PStr ""))]))).

Definition _update_polarion_work_item {W} (a : Adapter) (client : Client W)
    (work_item_id : pyval) (requirement : gmap string pyval)
    : M (W * list call) item_result :=
  catch_all
    (request <- mlift (update_request a work_item_id requirement) ;;
     response <- remote (CallPost request) (post client request) ;;
     if status_code response =? 200
     then mret (ItemUpdated {["work_item_id" := work_item_id]})
     else mret (ItemFailed "Failed to update work item"))
    (fun e => mret (ItemFailed (str_exn e))).

Definition _sync_requirement_to_work_item {W} (a : Adapter) (client : Client W)
    (project : pyval) (cfg : sync_config)
    (requirement : gmap string pyval) : M (W * list call) item_result :=
  catch_all
    (let polarion_work_item_id :=
       dict_get requirement "polarion_work_item_id" PNone in
     if truthy polarion_work_item_id
     then _update_polarion_work_item a client polarion_work_item_id requirement
     else _create_polarion_work_item a client project requirement
            (default (PStr "requirement") (cfg_item_type cfg)))
    (fun e => mret (ItemFailed (str_exn e))).

(** [not self.http_client or not self.session_id] *)
Definition ready {W} (a : Adapter) (client : option (Client W))
    : option (Client W) :=
  match client with
  | Some c => if truthy (session_id a) then Some c else None
  | None => None
  end.

Definition sync_project {W} (a : Adapter) (client : option (Client W))
    (project_id : string) (cfg : sync_config) : M (W * list call) envelope :=
  catch_all
    (match ready a client with
     | None =>
       mret (format_error_response name "Polarion client not initialized")
     | Some client =>
       let polarion_project := cfg_project cfg in
       if negb (truthy polarion_project)
       then mret (format_error_response name
                    "Polarion project not specified in sync config")
       else
         sync_results <-
           sync_loop (_sync_requirement_to_work_item a client
                        polarion_project cfg)
                     (cfg_requirements cfg) empty_sync ;;
         mret (format_success_response name (sync_results_dict sync_results))
     end)
    (fun e => mret (format_error_response name
                      ("Project sync failed: " +:+ str_exn e))).

(** [update_item]; [field_mapping] is
    [project_config.get("field_mapping", {})]. *)
Definition update_item {W} (a : Adapter) (client : option (Client W))
    (item_id : string) (item_data : gmap string pyval)
    (field_mapping : field_mapping_t) : M (W * list call) envelope :=
  catch_all
    (match ready a client with
     | None =>
       mret (format_error_response name "Polarion client not initialized")
     | Some client =>
       mapped_data <- mlift (map_fields item_data field_mapping) ;;
       result <- _update_polarion_work_item a client (PStr item_id)
                   mapped_data ;;
       match result with
       | ItemFailed error => mret (format_error_response name error)
       | _ => mret (format_success_response name
                      {["item_id" := PStr item_id]})
       end
     end)
    (fun e => mret (format_error_response name
                      ("Failed to update item: " +:+ str_exn e))).

End Polarion.

(** What Polarion's create path makes of the answer to its one request. *)
Definition polarion_create_outcome (a : Polarion.Adapter)
    (answer : res Polarion.Response) : item_result :=
  match answer with
  | Raise e => ItemFailed (str_exn e)
  | Ret response =>
    if Polarion.status_code response =? 200 then
      match Polarion.xml_find_text a "createWorkItemReturn"
                                   (Polarion.text response) with
      | Raise e => ItemFailed (str_exn e)
      | Ret None => ItemFailed "Failed to create work item"
      | Ret (Some work_item_uri) =>
        ItemCreated
          {["work_item_id" := Polarion.work_item_id_of work_item_uri;
            "work_item_uri" := work_item_uri]}
      end
    else ItemFailed "Failed to create work item"
  end.

(** What Jira's per-record sync makes of the answer to its create call. *)
Definition jira_create_outcome (answer : res Jira.NewIssue) : item_result :=
  match answer with
  | Ret new_issue =>
    ItemCreated {["issue_key" := Jira.new_key new_issue;
                  "issue_id" := Jira.new_id new_issue]}
  | Raise e => ItemFailed (str_exn e)
  end.

(** ** Example data and test doubles *)

(** The record of the specification's scenario, and the same record once
    a caller has stored a Jira key in it. *)
Definition scenario_record : gmap string pyval :=
  {["req_id" := PStr "R1"; "title" := PStr "Validate login";
    "text" := PStr "..."; "std_tags" := PList [PStr "ISO_13485"]]}.

Definition linked_record : gmap string pyval :=
  <["jira_issue_key" := PStr "PROJ-1"]> scenario_record.

(** A record with neither title nor text, and a third, ordinary one. *)
Definition empty_record : gmap string pyval :=
  {["req_id" := PStr "R2"]}.

Definition audit_record : gmap string pyval :=
  {["req_id" := PStr "R3"; "title" := PStr "Audit trail";
    "text" := PStr "Every change is logged"]}.

Definition scenario_config (requirements : list (gmap string pyval))
    : sync_config :=
  mkConfig (PStr "PROJ") (Some (PStr "Story"))
           [("title", "summary"); ("text", "description")] requirements.

(** A Jira backend that counts the issues it has created.  It finds every
    project and every issue (each with the scenario's summary and
    description), rejects an issue with an empty summary and accepts every
    update. *)
Definition demo_jira : Jira.Client nat := {|
  Jira.project key w := (Ret tt, w);
  Jira.issue key w :=
    (Ret (Jira.mkIssue key
            {["summary" := PStr "Validate login";
              "description" := PStr "..."]}), w);
  Jira.create_issue fields w :=
    if py_eq (dict_get fields "summary" PNone) (PStr "")
    then (Raise (mkExn JIRAError "summary is required"), w)
    else (Ret (Jira.mkNewIssue
                 (PStr (match w with O => "PROJ-1" | _ => "PROJ-N" end))
                 (PInt (10001 + Z.of_nat w))), Datatypes.S w);
  Jira.issue_update i fields w := (Ret tt, w);
|}.

(** A Polarion backend that counts the work items it has created and
    answers every request with status 200, and an adapter instance with a
    session whose XML library finds the URI of the created work item. *)
Definition demo_polarion : Polarion.Client nat := {|
  Polarion.post request w :=
    (Ret (Polarion.mkResponse 200 "<createWorkItemReturn/>"), Datatypes.S w);
|}.

Definition demo_polarion_adapter : Polarion.Adapter :=
  Polarion.mkAdapter
    {["server_url" := PStr "https://polarion.example.com"]}
    (PStr "session-1")
    (fun tag text =>
       Ret (Some (PStr "subterra:data-service:objects:/default/WI-7"))).

(** An Azure DevOps backend that counts the work items it has created.  It
    finds every project and work item, rejects a document whose first
    operation carries an empty title and accepts every update. *)
Definition demo_core : AzureDevOps.CoreClient nat := {|
  AzureDevOps.get_project p w := (Ret tt, w);
|}.

Definition demo_wit : AzureDevOps.WitClient nat := {|
  AzureDevOps.get_work_item id w :=
    (Ret (AzureDevOps.mkWorkItem id (PStr "https://dev.azure.com/wi")
            {["System.Title" := PStr "Validate login";
              "System.Description" := PStr "..."]}), w);
  AzureDevOps.create_work_item document p type w :=
    match document with
    | first :: _ =>
      if py_eq (AzureDevOps.value first) (PStr "")
      then (Raise (mkExn ClientException "title is required"), w)
      else (Ret (AzureDevOps.mkWorkItem (PInt (1 + Z.of_nat w))
                   (PStr "https://dev.azure.com/wi") ∅), Datatypes.S w)
    | [] => (Raise (mkExn ClientException "empty document"), w)
    end;
  AzureDevOps.update_work_item document id w :=
    (Ret (AzureDevOps.mkWorkItem id (PStr "https://dev.azure.com/wi") ∅), w);
|}.

(** A batch of three unlinked records, the second of which the demo
    backends reject, and the payloads Jira's create path builds for the
    second and the third. *)
Definition mixed_batch : list (gmap string pyval) :=
  [scenario_record; empty_record; audit_record].

Definition empty_issue_data : gmap string pyval :=
  {["project" := PDict [("key", PStr "PROJ")];
    "summary" := PStr "";
    "description" := PStr "";
    "issuetype" := PDict [("name", PStr "Story")]]}.

Definition audit_issue_data : gmap string pyval :=
  {["project" := PDict [("key", PStr "PROJ")];
    "summary" := PStr "Audit trail";
    "description" := PStr "Every change is logged";
    "issuetype" := PDict [("name", PStr "Story")]]}.

(** A Jira client whose server cannot be reached: every call raises the
    HTTP library's connection error, which is not a [JIRAError]. *)
Definition unreachable_jira : Jira.Client unit := {|
  Jira.project key w := (Raise (mkExn ConnectionError "Connection refused"), w);
  Jira.issue key w := (Raise (mkExn ConnectionError "Connection refused"), w);
  Jira.create_issue fields w :=
    (Raise (mkExn ConnectionError "Connection refused"), w);
  Jira.issue_update i fields w :=
    (Raise (mkExn ConnectionError "Connection refused"), w);
|}.

(** The record and mapping used to try the field-mapping rule: two entries
    share the target ["x"]; the record holds only the second source. *)
Definition shared_target_mapping : field_mapping_t :=
  [("a", Flat "x"); ("b", Flat "x")].
Definition shared_target_record : gmap string pyval :=
  {["b" := PInt 1]}.

Definition scenario_mapping : field_mapping_t :=
  [("title", Flat "summary"); ("text", Flat "description");
   ("owner", Flat "assignee")].

(** A transform that always fails. *)
Definition failing_transform (v : pyval) : res pyval :=
  Raise (mkExn ValueError "bad value").



(** A stub adapter class for exercising the factory: an instance records
    its tool, its configuration and whether a client is set; [initialize]
    sets the client and returns true when the configuration's
    ["credentials_ok"] entry is true, and returns false otherwise. *)
Record stub_adapter : Type := mkStub {
  stub_tool : string;
  stub_config : gmap string pyval;
  stub_client : bool;
}.

Definition stub_ops : AdapterOps stub_adapter := {|
  construct alm_type config := Ret (mkStub alm_type config false);
  initialize a :=
    if truthy (dict_get (stub_config a) "credentials_ok" (PBool false))
    then (Ret true, mkStub (stub_tool a) (stub_config a) true)
    else (Ret false, a);
  test_connection a :=
    (Ret (if stub_client a
          then format_success_response (stub_tool a)
                 {["connection_status" := PStr "connected"]}
          else format_error_response (stub_tool a) "client not initialized"),
     a);
  health_check a := (Ret {["healthy" := PBool (stub_client a)]}, a);
  get_info_body a := Ret {["name" := PStr (stub_tool a)]};
|}.

Definition good_config : gmap string pyval :=
  {["credentials_ok" := PBool true]}.

Definition bad_config : gmap string pyval :=
  {["credentials_ok" := PBool false]}.

Definition stub_configurations : gmap string (gmap string pyval) :=
  {["jira" := good_config; "azure_devops" := good_config;
    "polarion" := bad_config]}.

(** The payload Jira's create path builds for the scenario record. *)
Definition scenario_issue_data : gmap string pyval :=
  {["project" := PDict [("key", PStr "PROJ")];
    "summary" := PStr "Validate login";
    "description" := PStr "...";
    "issuetype" := PDict [("name", PStr "Story")]]}.

(** The request Polarion's create path builds for the scenario record. *)
Definition scenario_request : Polarion.Request :=
  Polarion.mkRequest (PStr "https://polarion.example.com")
    Polarion.tracker_path "createWorkItem" (PStr "session-1")
    [("projectId", PStr "PROJ"); ("type", PStr "Story");
     ("title", PStr "Validate login"); ("description", PStr "...")].

(** A factory holding a connected Jira stub and a Polarion stub whose
    initialization failed. *)
Definition stub_factory : ALMFactory stub_adapter :=
  mkFactory stub_configurations
    [("jira", mkStub "jira" good_config true);
     ("polarion", mkStub "polarion" bad_config false)].

(** ** Further code of base_adapter.py *)

(** [validate_config]: every required field is in the configuration with a
    true value.  Nothing in the loop can raise on these values, so the
    handler of the method is not entered. *)
Fixpoint validate_config (config : gmap string pyval)
    (required_fields : list string) : bool :=
  match required_fields with
  | [] => true
  | field :: rest =>
    match config !! field with
    | None => false
    | Some v => if truthy v then validate_config config rest else false
    end
  end.

(** A mapping entry that [map_fields] acts upon: its source attribute is
    in the record and its target names a field. *)
Definition contributes (source_data : gmap string pyval)
    (entry : string * target_field) : bool :=
  match source_data !! entry.1, target_name entry.2 with
  | Some _, Some _ => true
  | _, _ => false
  end.



(** [sub in s] on strings *)
Fixpoint is_substring (sub s : string) : bool :=
  String.prefix sub s ||
  match s with
  | EmptyString => false
  | String _ rest => is_substring sub rest
  end.

Definition sensitive_fields : list string :=
  ["password"; "token"; "secret"; "key"; "auth"].

(** [any(sensitive in key.lower() for sensitive in sensitive_fields)] *)
Definition is_sensitive (key : string) : bool :=
  existsb (fun sensitive => is_substring sensitive (lower key))
          sensitive_fields.

Definition redacted : pyval := PStr "***REDACTED***".

(** [self.sanitize_data(v) if isinstance(v, dict) else v]: the recursion
    of [sanitize_data], through dictionary values and through the
    dictionaries that are items of a list value. *)
Fixpoint sanitize_item (v : pyval) : pyval :=
  match v with
  | PDict d =>
    PDict (map (fun entry : string * pyval =>
                  (entry.1,
                   if is_sensitive entry.1 then redacted
                   else match entry.2 with
                        | PDict _ => sanitize_item entry.2
                        | PList l => PList (map sanitize_item l)
                        | x => x
                        end)) d)
  | _ => v
  end.

(** What [sanitize_data] stores under a key. *)
Definition sanitize_entry (entry : string * pyval) : string * pyval :=
  (entry.1,
   if is_sensitive entry.1 then redacted
   else match entry.2 with
        | PDict _ => sanitize_item entry.2
        | PList l => PList (map sanitize_item l)
        | x => x
        end).

(** [sanitize_data], on a dictionary given by its entries in order. *)
Definition sanitize_data (data : list (string * pyval))
    : list (string * pyval) :=
  map sanitize_entry data.

Definition is_dict (v : pyval) : bool :=
  match v with PDict _ => true | _ => false end.

(** What a batch call hands back: an error response, or a success
    response around counters that account for every record of the batch
    once. *)
Definition batch_report (cfg : sync_config) (adapter_name : string)
    (response : envelope) : Prop :=
  (exists msg, response = format_error_response adapter_name msg)
  \/ exists r : SyncResult,
       response = format_success_response adapter_name (sync_results_dict r)
       /\ synced_items r = created_items r + updated_items r
       /\ synced_items r + Z.of_nat (length (errors r))
          = Z.of_nat (length (cfg_requirements cfg))
       /\ (errors r).*1 `sublist_of`
            (fun requirement => dict_get requirement "req_id" PNone)
            <$> cfg_requirements cfg.

(** The linked record after its title was edited. *)
Definition retitled_record : gmap string pyval :=
  <["title" := PStr "Validate login v2"]> linked_record.

(** The payloads of the create calls in a trace, and the payloads of the
    records of a batch that hold no issue key and whose payload can be
    built. *)
Definition jira_create_payloads (tr : list Jira.call)
    : list (gmap string pyval) :=
  omap (fun c => match c with
                 | Jira.CallCreateIssue fields => Some fields
                 | _ => None
                 end) tr.

Definition jira_unlinked_payload (project_key : pyval) (cfg : sync_config)
    (requirement : gmap string pyval) : option (gmap string pyval) :=
  if truthy (dict_get requirement "jira_issue_key" PNone) then None
  else match Jira.issue_data project_key requirement cfg with
       | Ret fields => Some fields
       | Raise _ => None
       end.


Definition polarion_linked_record : gmap string pyval :=
  <["polarion_work_item_id" := PStr "WI-7"]> scenario_record.

Definition plain_config (requirements : list (gmap string pyval))
    : sync_config :=
  mkConfig (PStr "PROJ") None [] requirements.

(** ** Further code of alm_factory.py *)

(** The tools the factory knows, in the order [_initialize_adapters] goes
    through them, and those of them that have a configuration. *)
Definition known_tools : list string := ["jira"; "azure_devops"; "polarion"].

Definition configured_tools (cfgs : gmap string (gmap string pyval))
    : list string :=
  filter (fun alm_type => is_Some (cfgs !! alm_type)) known_tools.

(** The loop of [ALMFactory.cleanup]: every adapter's [cleanup()] is
    awaited in turn, on the world [W] the adapters act upon; an exception
    is logged and the loop goes on.  The trace names the adapters whose
    [cleanup()] was awaited; the outcomes are kept for the log. *)
Fixpoint cleanup_loop {Obj W} (adapter_cleanup : Obj -> W -> res unit * W)
    (items : list (string * Obj)) (st : W * list string)
    : list (string * res unit) * (W * list string) :=
  match items with
  | [] => ([], st)
  | (alm_type, adapter) :: rest =>
    let '(r, st1) := remote alm_type (adapter_cleanup adapter) st in
    let '(log, st2) := cleanup_loop adapter_cleanup rest st1 in
    ((alm_type, r) :: log, st2)
  end.

(** [ALMFactory.cleanup]: after the loop, [self.adapters.clear()] and
    [self.configurations.clear()]. *)
Definition factory_cleanup {Obj W} (adapter_cleanup : Obj -> W -> res unit * W)
    (f : ALMFactory Obj) (st : W * list string)
    : (list (string * res unit) * ALMFactory Obj) * (W * list string) :=
  let '(log, st1) := cleanup_loop adapter_cleanup (adapters f) st in
  ((log, mkFactory ∅ []), st1).

(** The entry [get_health_status] stores for an adapter. *)
Definition health_entry {Obj} (ops : AdapterOps Obj) (adapter : Obj)
    : gmap string pyval :=
  match (health_check ops adapter).1 with
  | Ret adapter_health => adapter_health
  | Raise e => {["healthy" := PBool false; "error" := PStr (str_exn e)]}
  end.

(** Sanitizing twice is sanitizing once, for a value and for the items of a
    list value. *)
Definition sanitize_stable (v : pyval) : Prop :=
  sanitize_item (sanitize_item v) = sanitize_item v /\
  match v with
  | PList l =>
    Forall (fun y => sanitize_item (sanitize_item y) = sanitize_item y) l
  | _ => True
  end.

(** A field whose value differs from the fetched issue's. *)
Definition differs (i : Jira.Issue) (k : string) (v : pyval) : Prop :=
  py_eq (dict_get (Jira.issue_fields i) k PNone) v = false.

(** A string without ["/"]. *)
Fixpoint no_slash (s : string) : bool :=
  match s with
  | EmptyString => true
  | String c rest => negb (nat_of_ascii c =? 47)%nat && no_slash rest
  end.

(** ** jira_adapter.py: connecting *)

Module JiraConnection.

(** What [test_connection] and [health_check] use of the client. *)
Record Session (W : Type) : Type := {
  server_info : W -> res (gmap string pyval) * W;
  current_user : W -> res pyval * W;
}.
Arguments server_info {W} _ _.
Arguments current_user {W} _ _.

(** The adapter instance. *)
Record Adapter (W : Type) : Type := mkAdapter {
  config : gmap string pyval;
  jira_client : option (Session W);
  initialized : bool;
}.
Arguments mkAdapter {W} _ _ _.
Arguments config {W} _.
Arguments jira_client {W} _.
Arguments initialized {W} _.

(** The constructor [JIRA(options=..., basic_auth=(username, api_token))]
    of the client library. *)
Definition Connect (W : Type) : Type :=
  gmap string pyval -> pyval -> pyval -> W -> res (Session W) * W.

Inductive call : Type :=
  | CallConnect (options : gmap string pyval) (username api_token : pyval)
  | CallServerInfo
  | CallCurrentUser.

Definition required_fields : list string := ["server"; "username"; "api_token"].

Definition test_connection {W} (a : Adapter W) : M (W * list call) envelope :=
  catch_all
    (catch_class JIRAError
       (match jira_client a with
        | None =>
          mret (format_error_response Jira.name "Jira client not initialized")
        | Some client =>
          info <- remote CallServerInfo (server_info client) ;;
          mret (format_success_response Jira.name
                  {["server_info" :=
                      PDict [("version", dict_get info "version" PNone);
                             ("server_title",
                              dict_get info "serverTitle" PNone);
                             ("base_url", dict_get info "baseUrl" PNone)];
                    "connection_status" := PStr "connected"]})
        end)
       (fun e => mret (format_error_response Jira.name
                         ("Jira connection failed: " +:+ str_exn e))))
    (fun e => mret (format_error_response Jira.name
                      ("Connection test error: " +:+ str_exn e))).

(** [initialize]: the boolean it returns, the adapter as it leaves it and
    the state.  Every exception ends in [return False]. *)
Definition initialize {W} (connect : Connect W) (a : Adapter W)
    (st : W * list call) : (bool * Adapter W) * (W * list call) :=
  if negb (validate_config (config a) required_fields) then ((false, a), st)
  else
    match config a !! "server", config a !! "username",
          config a !! "api_token" with
    | Some server, Some username, Some api_token =>
      let options : gmap string pyval :=
        {["server" := server;
          "verify" := dict_get (config a) "verify_ssl" (PBool true)]} in
      match remote (CallConnect options username api_token)
                   (connect options username api_token) st with
      | (Raise e, st1) => ((false, a), st1)
      | (Ret client, st1) =>
        let a1 := mkAdapter (config a) (Some client) (initialized a) in
        match test_connection a1 st1 with
        | (Ret test_result, st2) =>
          if truthy (dict_get test_result "success" PNone)
          then ((true, mkAdapter (config a) (Some client) true), st2)
          else ((false, a1), st2)
        | (Raise e, st2) => ((false, a1), st2)
        end
      end
    | _, _, _ => ((false, a), st)
    end.

(** [health_check] *)
Definition health_check {W} (a : Adapter W)
    : M (W * list call) (gmap string pyval) :=
  catch_all
    (match jira_client a with
     | None =>
       mret {["healthy" := PBool false;
              "error" := PStr "Client not initialized"]}
     | Some client =>
       user <- remote CallCurrentUser (current_user client) ;;
       match config a !! "server" with
       | Some server =>
         mret {["healthy" := PBool true; "user" := user;
                "server" := server]}
       | None => mraise (mkExn KeyError "'server'")
       end
     end)
    (fun e => mret {["healthy" := PBool false; "error" := PStr (str_exn e)]}).

End JiraConnection.

(** A Jira server that accepts the credentials and then refuses the
    [server_info] request: the world counts the requests made. *)
Definition refusing_session : JiraConnection.Session nat := {|
  JiraConnection.server_info := fun w =>
    (Raise (mkExn JIRAError "HTTP 401"), S w);
  JiraConnection.current_user := fun w => (Ret (PStr "alice"), S w) |}.

Definition refusing_connect : JiraConnection.Connect nat :=
  fun _ _ _ w => (Ret refusing_session, S w).

Definition jira_config : gmap string pyval :=
  {["server" := PStr "https://jira.example.com";
    "username" := PStr "alice";
    "api_token" := PStr "secret"]}.

Definition fresh_jira_adapter : JiraConnection.Adapter nat :=
  JiraConnection.mkAdapter jira_config None false.

(* ====================================================================== *)
(** * Properties *)

(** Closes an equation between closed terms by evaluating both sides. *)
Ltac vm_refl :=
  lazymatch goal with
  | |- ?l = ?r => vm_cast_no_check (@eq_refl _ r)
  end.

(** ** map_fields *)

Section MapFields.
Implicit Types (source_data acc m : gmap string pyval).
Implicit Types (fm : field_mapping_t).

Lemma map_fields_total source_data fm :
  exists m, map_fields source_data fm = Ret m.
Proof.
  unfold map_fields, try_except.
  destruct (map_fields_loop source_data fm ∅); eauto.
Qed.

Lemma map_fields_loop_app source_data fm1 fm2 acc :
  map_fields_loop source_data (fm1 ++ fm2) acc =
  res_bind (map_fields_loop source_data fm1 acc)
           (map_fields_loop source_data fm2).
Proof.
  revert acc. induction fm1 as [|[s t] fm1 IH]; intros acc; simpl; [done|].
  destruct (source_data !! s) as [v|]; [|apply IH].
  destruct t as [name|[mf|] tr]; try apply IH.
  destruct tr as [[f|w]|]; try apply IH.
  destruct (f v); [apply IH|done].
Qed.

Lemma map_fields_loop_raises source_data entry fm acc :
  entry_raises source_data entry ->
  exists e, map_fields_loop source_data (entry :: fm) acc = Raise e.
Proof.
  destruct entry as [s t]. intros (v & e & Hs & [name Hname] & Hval).
  simpl in *. rewrite Hs.
  destruct t as [n|[mf|] [[f|w]|]]; simpl in *; try discriminate.
  rewrite Hval. eauto.
Qed.

(** Every entry of the result was either in the accumulator or written by
    a mapping entry whose source attribute the record holds. *)
Lemma map_fields_loop_origin source_data fm : forall acc m,
  map_fields_loop source_data fm acc = Ret m ->
  forall name v, m !! name = Some v ->
    acc !! name = Some v \/
    exists s t v0, (s, t) ∈ fm /\ source_data !! s = Some v0
      /\ target_name t = Some name /\ target_value t v0 = Ret v.
Proof.
  induction fm as [|[s t] fm IH]; intros acc m Hrun name v Hlook; simpl in Hrun.
  - left. congruence.
  - assert (Hrest : forall acc',
      map_fields_loop source_data fm acc' = Ret m ->
      acc' !! name = Some v \/
      exists s' t' v0, (s', t') ∈ (s, t) :: fm /\ source_data !! s' = Some v0
        /\ target_name t' = Some name /\ target_value t' v0 = Ret v).
    { intros acc' Hacc'.
      destruct (IH _ _ Hacc' _ _ Hlook) as [?|(s' & t' & v0 & Hin & ?)];
        [by left|].
      right. exists s', t', v0. split; [by apply list_elem_of_further|done]. }
    assert (Hput : forall k w,
      source_data !! s = Some w -> target_name t = Some k ->
      forall w', target_value t w = Ret w' ->
      map_fields_loop source_data fm (<[k := w']> acc) = Ret m ->
      acc !! name = Some v \/
      exists s' t' v0, (s', t') ∈ (s, t) :: fm /\ source_data !! s' = Some v0
        /\ target_name t' = Some name /\ target_value t' v0 = Ret v).
    { intros k w Hw Hk w' Hw' Hacc'.
      destruct (Hrest _ Hacc') as [Hin|?]; [|by right].
      destruct (decide (k = name)) as [->|Hne].
      - rewrite lookup_insert_eq in Hin. injection Hin as ->.
        right. exists s, t, w. split; [apply list_elem_of_here|done].
      - rewrite lookup_insert_ne in Hin by done. by left. }
    destruct (source_data !! s) as [w|] eqn:Hs; [|by apply Hrest].
    destruct t as [n|[mf|] tr]; simpl in *.
    + by eapply Hput.
    + destruct tr as [[f|x]|]; simpl in *.
      * destruct (f w) as [w'|e] eqn:Hf; [|discriminate].
        by eapply (Hput mf w eq_refl eq_refl w').
      * by eapply Hput.
      * by eapply Hput.
    + by apply Hrest.
Qed.
End MapFields.

(** C6, as stated, fails: the target of an entry whose source attribute is
    absent does appear in the payload when another entry, whose source is
    present, writes the same target. *)
Lemma map_fields_absent_target_counterexample :
  ~ (forall (source_data : gmap string pyval) (fm : field_mapping_t)
        s t name m,
      (s, t) ∈ fm -> source_data !! s = None ->
      target_name t = Some name ->
      map_fields source_data fm = Ret m ->
      m !! name = None).
Proof.
  intros H.
  specialize (H shared_target_record shared_target_mapping "a" (Flat "x") "x"
                ({["x" := PInt 1]} : gmap string pyval)).
  assert (Hm : ({["x" := PInt 1]} : gmap string pyval) !! "x" = None).
  { apply H.
    - apply list_elem_of_here.
    - done.
    - done.
    - vm_refl. }
  rewrite lookup_singleton_eq in Hm. discriminate.
Qed.

(** C6 (amended): every entry of the payload built by [map_fields] comes
    from a mapping entry whose source attribute the record holds, its value
    being that attribute's value after the optional transform, placed under
    the entry's target field; hence the target of an entry whose source
    attribute is absent is not in the payload unless an entry whose source
    is present writes to the same target. *)
Theorem map_fields_skip_rule :
  forall (source_data : gmap string pyval) (fm : field_mapping_t) m,
    map_fields source_data fm = Ret m ->
    (forall name v, m !! name = Some v ->
       exists s t v0, (s, t) ∈ fm /\ source_data !! s = Some v0
         /\ target_name t = Some name /\ target_value t v0 = Ret v)
    /\
    (forall s t name,
       (s, t) ∈ fm -> source_data !! s = None ->
       target_name t = Some name ->
       (forall s' t', (s', t') ∈ fm -> is_Some (source_data !! s') ->
                      target_name t' <> Some name) ->
       m !! name = None).
Proof.
  intros source_data fm m Hm.
  assert (Horigin : forall name v, m !! name = Some v ->
    exists s t v0, (s, t) ∈ fm /\ source_data !! s = Some v0
      /\ target_name t = Some name /\ target_value t v0 = Ret v).
  { intros name v Hlook. unfold map_fields, try_except in Hm.
    destruct (map_fields_loop source_data fm ∅) as [m'|e] eqn:Hloop.
    - injection Hm as ->.
      destruct (map_fields_loop_origin _ _ _ _ Hloop _ _ Hlook) as [Hemp|?];
        [|done].
      rewrite lookup_empty in Hemp. discriminate.
    - injection Hm as <-. rewrite lookup_empty in Hlook. discriminate. }
  split; [exact Horigin|].
  intros s t name _ _ _ Hothers.
  destruct (m !! name) as [v|] eqn:Hlook; [|done].
  destruct (Horigin _ _ Hlook) as (s' & t' & v0 & Hin & Hs' & Hn & _).
  exfalso. apply (Hothers s' t' Hin); [by eexists|done].
Qed.

Lemma map_fields_skip_rule_witness :
  map_fields scenario_record scenario_mapping
    = Ret {["summary" := PStr "Validate login"; "description" := PStr "..."]}
  /\ ({["summary" := PStr "Validate login"; "description" := PStr "..."]}
        : gmap string pyval) !! "assignee" = None.
Proof.
  assert (Hrun : map_fields scenario_record scenario_mapping
    = Ret {["summary" := PStr "Validate login"; "description" := PStr "..."]}).
  { vm_refl. }
  split; [exact Hrun|].
  apply (proj2 (map_fields_skip_rule _ _ _ Hrun) "owner" (Flat "assignee")).
  - unfold scenario_mapping. set_solver.
  - vm_refl.
  - reflexivity.
  - intros s' t' Hin [v Hv] Hname.
    unfold scenario_mapping in Hin.
    apply elem_of_cons in Hin as [Heq|Hin]; [injection Heq as -> ->; discriminate|].
    apply elem_of_cons in Hin as [Heq|Hin]; [injection Heq as -> ->; discriminate|].
    apply elem_of_cons in Hin as [Heq|Hin]; [|by apply elem_of_nil in Hin].
    injection Heq as -> ->. vm_compute in Hv. discriminate.
Defined.

(** C10: if the transform of some mapping entry raises on the record's
    value, [map_fields] returns the empty map, whatever the entries before
    it had already mapped, and does not raise. *)
Theorem map_fields_transform_failure :
  forall (source_data : gmap string pyval) (pre post : field_mapping_t) bad,
    entry_raises source_data bad ->
    map_fields source_data (pre ++ bad :: post) = Ret ∅.
Proof.
  intros source_data pre post bad Hbad.
  unfold map_fields, try_except.
  rewrite map_fields_loop_app.
  destruct (map_fields_loop source_data pre ∅) as [acc|e]; cbn [res_bind]; [|done].
  destruct (map_fields_loop_raises source_data bad post acc Hbad) as [e ->].
  done.
Qed.

Lemma map_fields_transform_failure_witness :
  map_fields scenario_record [("title", Flat "summary")]
    = Ret {["summary" := PStr "Validate login"]}
  /\ map_fields scenario_record
       ([("title", Flat "summary")]
        ++ ("text", Nested (Some "description") (Some (Callable failing_transform)))
        :: [("req_id", Flat "id")]) = Ret ∅.
Proof.
  split; [vm_refl|].
  apply map_fields_transform_failure.
  exists (PStr "..."), (mkExn ValueError "bad value").
  split; [vm_refl|].
  split; [by eexists|reflexivity].
Defined.

(** ** retry_operation *)

Section Retry.
Context {W A : Type}.
Variable operation : W -> res A * W.
Variable max_retries : Z.
Variable delay : Q.



End Retry.






(** ** The factory *)

Section Factory.
Context {Obj : Type}.
Variable ops : AdapterOps Obj.

Lemma dict_lookup_set {V : Type} (d : list (string * V)) key key' (v : V) :
  dict_lookup (dict_set d key v) key'
  = if String.eqb key key' then Some v else dict_lookup d key'.
Proof.
induction d as [|[k w] d IH]; simpl.
- done.
- destruct (String.eqb_spec k key) as [->|Hk]; simpl.
  + by destruct (String.eqb key key').
  + destruct (String.eqb_spec k key') as [->|Hk'].
    * destruct (String.eqb_spec key key'); congruence.
    * apply IH.
Qed.

Lemma health_loop_overall items : forall hs,
  overall_healthy (health_loop ops items hs)
  = overall_healthy hs
    && forallb (fun item => reports_healthy ops item.2) items.
Proof.
induction items as [|[alm_type adapter] items IH]; intros hs; simpl.
- by rewrite andb_true_r.
- rewrite IH. unfold health_step, reports_healthy.
  destruct (health_check ops adapter).1 as [d|e]; simpl.
  + destruct (truthy (dict_get d "healthy" (PBool false)));
      simpl; [done|]. by rewrite andb_false_r.
  + by rewrite andb_false_r.
Qed.

Lemma health_step_entries alm_type adapter hs k :
  is_Some (adapters_health hs !! k) \/ k = alm_type ->
  is_Some (adapters_health (health_step ops alm_type adapter hs) !! k).
Proof.
intros H. unfold health_step.
destruct (health_check ops adapter).1 as [d|e]; simpl;
  (destruct (decide (alm_type = k)) as [->|Hne];
   [rewrite lookup_insert_eq; by eexists
   |rewrite lookup_insert_ne by done; destruct H; [done|congruence]]).
Qed.

Lemma health_loop_entries items : forall hs k,
  is_Some (adapters_health hs !! k) \/ k ∈ items.*1 ->
  is_Some (adapters_health (health_loop ops items hs) !! k).
Proof.
induction items as [|[alm_type adapter] items IH]; intros hs k H; simpl.
- destruct H as [?|H]; [done|]. by apply elem_of_nil in H.
- apply IH. simpl in H. destruct H as [H|H].
  + left. apply health_step_entries. by left.
  + apply elem_of_cons in H as [->|H]; [|by right].
    left. apply health_step_entries. by right.
Qed.
End Factory.

(** C8: [get_available_adapters] returns a dictionary, the empty one, only
    when no adapter is registered; with any adapter registered it raises
    the [TypeError] of subscripting the coroutine object that the
    un-awaited [get_info()] call evaluates to. *)
Theorem get_available_adapters_coroutine :
  forall (Obj : Type) (ops : AdapterOps Obj) (f : ALMFactory Obj),
    get_available_adapters ops f =
    match adapters f with
    | [] => Ret []
    | _ :: _ =>
      Raise (mkExn TypeError "'coroutine' object is not subscriptable")
    end.
Proof.
intros Obj ops f. unfold get_available_adapters.
destruct (adapters f) as [|[alm_type adapter] rest]; reflexivity.
Qed.

(** C9: [get_health_status] returns a report whose [overall_healthy] is
    true exactly when the health check of every registered adapter returns
    (does not raise) a dictionary whose ["healthy"] entry is true; the
    report holds an entry for every registered adapter in any case. *)
Theorem get_health_status_overall :
  forall (Obj : Type) (ops : AdapterOps Obj) (f : ALMFactory Obj),
    exists hs : health_status,
      get_health_status ops f = Ret hs /\
      (overall_healthy hs = true <->
       forall alm_type adapter, (alm_type, adapter) ∈ adapters f ->
         exists d, (health_check ops adapter).1 = Ret d /\
                   truthy (dict_get d "healthy" (PBool false)) = true) /\
      (forall alm_type adapter, (alm_type, adapter) ∈ adapters f ->
         is_Some (adapters_health hs !! alm_type)).
Proof.
intros Obj ops f. eexists. split; [reflexivity|]. split.
- rewrite health_loop_overall. simpl. rewrite forallb_forall. split.
  + intros Hall alm_type adapter Hin.
    apply list_elem_of_In in Hin. specialize (Hall _ Hin).
    unfold reports_healthy in Hall. simpl in Hall.
    destruct (health_check ops adapter).1 as [d|e]; [|discriminate].
    eauto.
  + intros Hall [alm_type adapter] Hin. apply list_elem_of_In in Hin.
    destruct (Hall _ _ Hin) as (d & Hd & Hh).
    unfold reports_healthy. simpl. by rewrite Hd.
- intros alm_type adapter Hin. apply health_loop_entries. right.
  apply list_elem_of_fmap. by exists (alm_type, adapter).
Qed.

Lemma get_health_status_overall_witness :
  exists hs : health_status,
    get_health_status stub_ops stub_factory = Ret hs /\
    overall_healthy hs = false /\
    is_Some (adapters_health hs !! "jira") /\
    is_Some (adapters_health hs !! "polarion").
Proof.
destruct (get_health_status_overall stub_adapter stub_ops stub_factory)
  as (hs & Hrun & Hiff & Hentries).
exists hs. split; [exact Hrun|]. split.
- destruct (overall_healthy hs); [|reflexivity]. exfalso.
  destruct (proj1 Hiff eq_refl "polarion" (mkStub "polarion" bad_config false))
    as (d & Hd & Hhealthy).
  + unfold stub_factory. cbn [adapters].
    apply list_elem_of_further, list_elem_of_here.
  + cbn in Hd. injection Hd as <-. vm_compute in Hhealthy. discriminate.
- split.
  + apply (Hentries "jira" (mkStub "jira" good_config true)).
    unfold stub_factory. cbn [adapters]. apply list_elem_of_here.
  + apply (Hentries "polarion" (mkStub "polarion" bad_config false)).
    unfold stub_factory. cbn [adapters].
    apply list_elem_of_further, list_elem_of_here.
Defined.

(** C3 (what the code does instead): when all three tools are configured
    and the Polarion adapter's [initialize] returns false, the factory
    registers the Polarion adapter all the same, next to the two others;
    [get_available_adapters] then raises instead of listing the available
    ones, and [test_connection("polarion")] answers with whatever the
    registered adapter's own [test_connection] yields, not with the
    factory's adapter-not-available error. *)
Theorem initialize_adapters_registers_failed :
  forall (Obj : Type) (ops : AdapterOps Obj)
         (cfgs : gmap string (gmap string pyval)) cj ca cp
         (aj aa ap aj' aa' ap' : Obj) (bj ba : bool),
    cfgs !! "jira" = Some cj ->
    cfgs !! "azure_devops" = Some ca ->
    cfgs !! "polarion" = Some cp ->
    construct ops "jira" cj = Ret aj ->
    initialize ops aj = (Ret bj, aj') ->
    construct ops "azure_devops" ca = Ret aa ->
    initialize ops aa = (Ret ba, aa') ->
    construct ops "polarion" cp = Ret ap ->
    initialize ops ap = (Ret false, ap') ->
    (_initialize_adapters ops (mkFactory cfgs [])).1 = Ret tt /\
    adapters (_initialize_adapters ops (mkFactory cfgs [])).2
      = [("jira", aj'); ("azure_devops", aa'); ("polarion", ap')] /\
    get_available_adapters ops (_initialize_adapters ops (mkFactory cfgs [])).2
      = Raise (mkExn TypeError "'coroutine' object is not subscriptable") /\
    (factory_test_connection ops
       (_initialize_adapters ops (mkFactory cfgs [])).2 "polarion").1
      = Ret (match (test_connection ops ap').1 with
             | Ret result => result
             | Raise e =>
               {["success" := PBool false; "error" := PStr (str_exn e)]}
             end).
Proof.
intros Obj ops cfgs cj ca cp aj aa ap aj' aa' ap' bj ba
       Hj Ha Hp Hcj Hij Hca Hia Hcp Hip.
assert (Hrun : _initialize_adapters ops (mkFactory cfgs [])
  = (Ret tt, mkFactory cfgs
       [("jira", aj'); ("azure_devops", aa'); ("polarion", ap')])).
{ unfold _initialize_adapters, initialize_adapter. cbn [configurations adapters].
  rewrite Hj, Hcj, Hij. cbn [configurations adapters].
  rewrite Ha, Hca, Hia. cbn [configurations adapters].
  rewrite Hp, Hcp, Hip. reflexivity. }
rewrite Hrun. cbn [fst snd adapters].
split; [done|]. split; [done|]. split; [reflexivity|].
unfold factory_test_connection, get_adapter. cbn [adapters].
replace (lower "polarion") with "polarion" by (vm_refl).
cbn [dict_lookup String.eqb Ascii.eqb Bool.eqb].
destruct (test_connection ops ap') as [[result|e] ap'']; reflexivity.
Qed.

Lemma initialize_adapters_registers_failed_witness :
  adapters (_initialize_adapters stub_ops (mkFactory stub_configurations [])).2
    = [("jira", mkStub "jira" good_config true);
       ("azure_devops", mkStub "azure_devops" good_config true);
       ("polarion", mkStub "polarion" bad_config false)]
  /\ get_available_adapters stub_ops
       (_initialize_adapters stub_ops (mkFactory stub_configurations [])).2
     = Raise (mkExn TypeError "'coroutine' object is not subscriptable")
  /\ (factory_test_connection stub_ops
        (_initialize_adapters stub_ops (mkFactory stub_configurations [])).2
        "polarion").1
     = Ret (format_error_response "polarion" "client not initialized").
Proof.
destruct (initialize_adapters_registers_failed stub_adapter stub_ops
            stub_configurations good_config good_config bad_config
            (mkStub "jira" good_config false)
            (mkStub "azure_devops" good_config false)
            (mkStub "polarion" bad_config false)
            (mkStub "jira" good_config true)
            (mkStub "azure_devops" good_config true)
            (mkStub "polarion" bad_config false)
            true true)
  as (_ & Hreg & Havail & Htest);
  try (vm_refl).
split; [exact Hreg|]. split; [exact Havail|exact Htest].
Defined.

(** ** The batch loop *)

Section SyncLoop.
Context {S : Type}.
Variable sync_one : gmap string pyval -> M S item_result.

Lemma sync_loop_app l1 l2 : forall acc st,
  sync_loop sync_one (l1 ++ l2) acc st =
  match sync_loop sync_one l1 acc st with
  | (Ret acc1, st1) => sync_loop sync_one l2 acc1 st1
  | (Raise e, st1) => (Raise e, st1)
  end.
Proof.
induction l1 as [|r l1 IH]; intros acc st; simpl.
- by destruct l2.
- destruct (sync_one r st) as [out st']. apply IH.
Qed.

(** A batch whose records all succeed adds its length to the synced
    count, splits it between created and updated, and adds no error. *)
Lemma sync_loop_all_succeed l : forall acc st st',
  all_succeed sync_one l st = (true, st') ->
  exists acc',
    sync_loop sync_one l acc st = (Ret acc', st') /\
    synced_items acc' = synced_items acc + Z.of_nat (length l) /\
    created_items acc' + updated_items acc'
      = created_items acc + updated_items acc + Z.of_nat (length l) /\
    errors acc' = errors acc.
Proof.
induction l as [|r l IH]; intros acc st st' Hall; simpl in *.
- injection Hall as <-. exists acc. repeat split; lia.
- destruct (sync_one r st) as [out st1].
  destruct (all_succeed sync_one l st1) as [ok st2] eqn:Hrest.
  assert (ok = true /\ st2 = st' /\
          exists d, out = Ret (ItemCreated d) \/ out = Ret (ItemUpdated d))
    as (-> & -> & d & Hout).
  { destruct out as [[d|d|msg]|e]; injection Hall as ? ?;
      try discriminate; eauto. }
  destruct (IH (tally r out acc) _ _ Hrest) as (acc' & Hrun & Hs & Hcu & He).
  exists acc'. split; [exact Hrun|].
  destruct Hout as [-> | ->]; simpl in *; repeat split; lia || done.
Qed.

(** One failing record among successes. *)
Lemma sync_loop_one_failure pre r post st st2 st3 st4 msg :
  all_succeed sync_one pre st = (true, st2) ->
  fails_with (sync_one r st2) msg st3 ->
  all_succeed sync_one post st3 = (true, st4) ->
  exists created updated,
    created + updated = Z.of_nat (length (pre ++ r :: post)) - 1 /\
    sync_loop sync_one (pre ++ r :: post) empty_sync st
    = (Ret (mkSync (Z.of_nat (length (pre ++ r :: post)) - 1)
                   created updated [error_entry r msg]), st4).
Proof.
intros Hpre Hfail Hpost.
destruct (sync_loop_all_succeed pre empty_sync _ _ Hpre)
  as (acc1 & Hrun1 & Hs1 & Hcu1 & He1).
rewrite sync_loop_app, Hrun1. cbn [sync_loop].
assert (Htally : exists out, sync_one r st2 = (out, st3) /\
          tally r out acc1
          = mkSync (synced_items acc1) (created_items acc1)
                   (updated_items acc1) (errors acc1 ++ [error_entry r msg])).
{ destruct Hfail as [H|(e & H & ->)]; rewrite H; eexists; split; done. }
destruct Htally as (out & -> & ->).
destruct (sync_loop_all_succeed post
            (mkSync (synced_items acc1) (created_items acc1)
                    (updated_items acc1) (errors acc1 ++ [error_entry r msg]))
            _ _ Hpost)
  as (acc2 & -> & Hs2 & Hcu2 & He2).
simpl in *. rewrite He1 in He2. simpl in He2.
exists (created_items acc2), (updated_items acc2).
rewrite length_app. simpl length.
split; [lia|].
destruct acc2 as [s c u e]. simpl in *. subst e.
do 2 f_equal. f_equal. lia.
Qed.
End SyncLoop.

(** ** The Jira adapter *)

Section JiraSync.
Context {W : Type}.
Variable client : Jira.Client W.
Variable cfg : sync_config.

Lemma jira_sync_project_run project_id w w1 tr acc st' :
  truthy (cfg_project cfg) = true ->
  Jira.project client (cfg_project cfg) w = (Ret tt, w1) ->
  sync_loop (Jira._sync_requirement_to_issue client (cfg_project cfg) cfg)
            (cfg_requirements cfg) empty_sync
            (w1, tr ++ [Jira.CallProject (cfg_project cfg)])
    = (Ret acc, st') ->
  Jira.sync_project (Some client) project_id cfg (w, tr)
    = (Ret (format_success_response Jira.name (sync_results_dict acc)), st').
Proof.
intros Hkey Hproj Hloop.
unfold Jira.sync_project, catch_all, catch_class, mbind, remote, mret.
rewrite Hkey. cbn [negb fst snd]. rewrite Hproj, Hloop. reflexivity.
Qed.

(** An unlinked record takes the create path, and a failing create call
    becomes a failed per-record result. *)
Lemma jira_unlinked_create_fails project_key requirement st msg st' :
  truthy (dict_get requirement "jira_issue_key" PNone) = false ->
  fails_with (Jira._create_jira_issue client project_key requirement cfg st)
             msg st' ->
  Jira._sync_requirement_to_issue client project_key cfg requirement st
    = (Ret (ItemFailed msg), st').
Proof.
intros Hkey Hfail. unfold Jira._sync_requirement_to_issue, catch_all.
rewrite Hkey.
destruct Hfail as [->|(e & -> & ->)]; reflexivity.
Qed.

(** The create path: the payload is built, one create call is made, and
    its outcome decides the result. *)
Lemma jira_create_run project_key requirement fields w tr :
  Jira.issue_data project_key requirement cfg = Ret fields ->
  Jira._create_jira_issue client project_key requirement cfg (w, tr)
  = match Jira.create_issue client fields w with
    | (Ret new_issue, w') =>
      (Ret (ItemCreated {["issue_key" := Jira.new_key new_issue;
                          "issue_id" := Jira.new_id new_issue]}),
       (w', tr ++ [Jira.CallCreateIssue fields]))
    | (Raise e, w') =>
      (if decide (exn_cls e = JIRAError)
       then Ret (ItemFailed (str_exn e)) else Raise e,
       (w', tr ++ [Jira.CallCreateIssue fields]))
    end.
Proof.
intros Hdata.
unfold Jira._create_jira_issue, catch_class, mbind, mlift, remote, mret.
rewrite Hdata. cbn [fst snd].
destruct (Jira.create_issue client fields w) as [[ni|e] w']; [done|].
by destruct (decide (exn_cls e = JIRAError)).
Qed.

Lemma jira_sync_unlinked_run project_key requirement fields w tr :
  truthy (dict_get requirement "jira_issue_key" PNone) = false ->
  Jira.issue_data project_key requirement cfg = Ret fields ->
  Jira._sync_requirement_to_issue client project_key cfg requirement (w, tr)
  = (match (Jira.create_issue client fields w).1 with
     | Ret new_issue =>
       Ret (ItemCreated {["issue_key" := Jira.new_key new_issue;
                          "issue_id" := Jira.new_id new_issue]})
     | Raise e => Ret (ItemFailed (str_exn e))
     end,
     ((Jira.create_issue client fields w).2,
      tr ++ [Jira.CallCreateIssue fields])).
Proof.
intros Hkey Hdata. unfold Jira._sync_requirement_to_issue, catch_all.
rewrite Hkey, (jira_create_run _ _ _ _ _ Hdata).
destruct (Jira.create_issue client fields w) as [[ni|e] w']; [done|].
by destruct (decide (exn_cls e = JIRAError)).
Qed.

(** The update path when nothing changed: the issue is fetched and no
    update is sent. *)
Lemma jira_sync_linked_noop project_key requirement key i w w' tr :
  dict_get requirement "jira_issue_key" PNone = key ->
  truthy key = true ->
  Jira.issue client key w = (Ret i, w') ->
  Jira.update_data i requirement cfg = Ret ∅ ->
  Jira._sync_requirement_to_issue client project_key cfg requirement (w, tr)
  = (Ret (ItemUpdated {["issue_key" := key;
                        "updated_fields" := PList []]}),
     (w', tr ++ [Jira.CallIssue key])).
Proof.
intros Hkey Htruthy Hissue Hdata.
unfold Jira._sync_requirement_to_issue, catch_all.
rewrite Hkey, Htruthy.
unfold Jira._update_jira_issue, catch_class, mbind, mlift, remote, mret.
cbn [fst snd]. rewrite Hissue, Hdata.
rewrite decide_True by done.
rewrite dom_empty_L, elements_empty. reflexivity.
Qed.
End JiraSync.

(** C1, as stated, fails: a linked record whose set of changed fields is
    empty is re-synced without any update call, but the batch result
    counts it as updated: [updated_items] is 1, not 0. *)
Lemma jira_noop_counted_as_updated_counterexample :
  truthy (dict_get linked_record "jira_issue_key" PNone) = true
  /\ Jira.update_data
       (Jira.mkIssue (PStr "PROJ-1")
          {["summary" := PStr "Validate login"; "description" := PStr "..."]})
       linked_record (scenario_config [linked_record]) = Ret ∅
  /\ Jira.sync_project (Some demo_jira) "P1"
       (scenario_config [linked_record]) (O, [])
     = (Ret (format_success_response Jira.name
               (sync_results_dict (mkSync 1 0 1 []))),
        (O, [Jira.CallProject (PStr "PROJ"); Jira.CallIssue (PStr "PROJ-1")]))
  /\ format_success_response Jira.name (sync_results_dict (mkSync 1 0 1 []))
     <> format_success_response Jira.name
          (sync_results_dict (mkSync 1 0 0 [])).
Proof.
split; [vm_refl|]. split; [vm_refl|]. split; [vm_refl|].
intros H.
apply (f_equal (fun m : envelope => m !! "updated_items")) in H.
vm_compute in H. discriminate.
Qed.

(** C1 (amended): when the only record of a batch is linked, its issue is
    fetched and no mapped field differs from the fetched issue, Jira's
    [sync_project] makes no update call (the project lookup and the issue
    fetch are its only remote calls) and returns the record counted as
    synced and as updated, none created, no error. *)
Theorem jira_sync_unchanged_record :
  forall (W : Type) (client : Jira.Client W) (project_id : string)
         (cfg : sync_config) (requirement : gmap string pyval)
         (key : pyval) (i : Jira.Issue) (w w1 w2 : W),
    cfg_requirements cfg = [requirement] ->
    truthy (cfg_project cfg) = true ->
    Jira.project client (cfg_project cfg) w = (Ret tt, w1) ->
    dict_get requirement "jira_issue_key" PNone = key ->
    truthy key = true ->
    Jira.issue client key w1 = (Ret i, w2) ->
    Jira.update_data i requirement cfg = Ret ∅ ->
    Jira.sync_project (Some client) project_id cfg (w, [])
    = (Ret (format_success_response Jira.name
              (sync_results_dict (mkSync 1 0 1 []))),
       (w2, [Jira.CallProject (cfg_project cfg); Jira.CallIssue key])).
Proof.
intros W client project_id cfg requirement key i w w1 w2
       Hreqs Hproject Hlookup Hkey Htruthy Hissue Hdata.
apply (jira_sync_project_run client cfg project_id w w1 []
         (mkSync 1 0 1 [])); [done|done|].
rewrite Hreqs. cbn [sync_loop].
rewrite (jira_sync_linked_noop client cfg _ _ key i w1 w2 _
           Hkey Htruthy Hissue Hdata).
reflexivity.
Qed.

Lemma jira_sync_unchanged_record_witness :
  Jira.sync_project (Some demo_jira) "P1" (scenario_config [linked_record])
                    (O, [])
  = (Ret (format_success_response Jira.name
            (sync_results_dict (mkSync 1 0 1 []))),
     (O, [Jira.CallProject (cfg_project (scenario_config [linked_record]));
          Jira.CallIssue (PStr "PROJ-1")])).
Proof.
apply (jira_sync_unchanged_record nat demo_jira "P1"
         (scenario_config [linked_record]) linked_record (PStr "PROJ-1")
         (Jira.mkIssue (PStr "PROJ-1")
            {["summary" := PStr "Validate login";
              "description" := PStr "..."]})
         O O O); vm_refl.
Defined.

(** ** The Polarion adapter *)

Section PolarionSync.
Context {W : Type}.
Variable a : Polarion.Adapter.
Variable client : Polarion.Client W.
Variable cfg : sync_config.

Lemma polarion_sync_unlinked_run project requirement request w tr :
  truthy (dict_get requirement "polarion_work_item_id" PNone) = false ->
  Polarion.create_request a project requirement
    (default (PStr "requirement") (cfg_item_type cfg)) = Ret request ->
  Polarion._sync_requirement_to_work_item a client project cfg requirement
    (w, tr)
  = (Ret (polarion_create_outcome a (Polarion.post client request w).1),
     ((Polarion.post client request w).2, tr ++ [Polarion.CallPost request])).
Proof.
intros Hid Hreq.
unfold Polarion._sync_requirement_to_work_item, catch_all. rewrite Hid.
unfold Polarion._create_polarion_work_item, catch_all, mbind, mlift, remote,
  mret.
rewrite Hreq. cbn [fst snd].
destruct (Polarion.post client request w) as [[response|e] w']; [|done].
cbn [fst snd polarion_create_outcome].
destruct (Polarion.status_code response =? 200); [|done].
destruct (Polarion.xml_find_text a "createWorkItemReturn"
            (Polarion.text response)) as [[uri|]|e]; done.
Qed.
End PolarionSync.

(** C2, as stated, fails: the created issue's key is not attached to the
    record.  Syncing the scenario record creates an issue; syncing the same
    record again, against the backend as the first sync left it, makes a
    second create call and no issue lookup. *)
Lemma jira_created_key_not_attached_counterexample :
  Jira.sync_project (Some demo_jira) "P1" (scenario_config [scenario_record])
                    (0%nat, [])
  = (Ret (format_success_response Jira.name
            (sync_results_dict (mkSync 1 1 0 []))),
     (1%nat, [Jira.CallProject (PStr "PROJ");
              Jira.CallCreateIssue scenario_issue_data]))
  /\ Jira.sync_project (Some demo_jira) "P1"
       (scenario_config [scenario_record]) (1%nat, [])
     = (Ret (format_success_response Jira.name
               (sync_results_dict (mkSync 1 1 0 []))),
        (2%nat, [Jira.CallProject (PStr "PROJ");
                 Jira.CallCreateIssue scenario_issue_data])).
Proof. split; vm_refl. Qed.

(** C2 (amended): the per-record sync of a record that holds no remote id
    and whose payload can be built makes exactly one remote call, the
    create call with that payload, and its result reports a creation with
    the identifier the backend returned when that call succeeds (a failure
    otherwise).  This holds from every state, so for every later sync as
    well: the record is left as it was.  Stated for Jira and for
    Polarion. *)
Theorem unlinked_record_one_create_call :
  (forall (W : Type) (client : Jira.Client W) (project_key : pyval)
          (cfg : sync_config) (requirement fields : gmap string pyval)
          (w : W) (tr : list Jira.call),
     truthy (dict_get requirement "jira_issue_key" PNone) = false ->
     Jira.issue_data project_key requirement cfg = Ret fields ->
     Jira._sync_requirement_to_issue client project_key cfg requirement (w, tr)
     = (Ret (jira_create_outcome (Jira.create_issue client fields w).1),
        ((Jira.create_issue client fields w).2,
         tr ++ [Jira.CallCreateIssue fields])))
  /\
  (forall (W : Type) (a : Polarion.Adapter) (client : Polarion.Client W)
          (project : pyval) (cfg : sync_config)
          (requirement : gmap string pyval) (request : Polarion.Request)
          (w : W) (tr : list Polarion.call),
     truthy (dict_get requirement "polarion_work_item_id" PNone) = false ->
     Polarion.create_request a project requirement
       (default (PStr "requirement") (cfg_item_type cfg)) = Ret request ->
     Polarion._sync_requirement_to_work_item a client project cfg requirement
       (w, tr)
     = (Ret (polarion_create_outcome a (Polarion.post client request w).1),
        ((Polarion.post client request w).2,
         tr ++ [Polarion.CallPost request]))).
Proof.
split.
- intros W client project_key cfg requirement fields w tr Hkey Hdata.
  rewrite (jira_sync_unlinked_run client cfg _ _ _ _ _ Hkey Hdata).
  unfold jira_create_outcome.
  by destruct (Jira.create_issue client fields w).1.
- intros W a client project cfg requirement request w tr Hid Hreq.
  by apply polarion_sync_unlinked_run.
Qed.

Lemma unlinked_record_one_create_call_witness :
  Jira._sync_requirement_to_issue demo_jira (PStr "PROJ")
    (scenario_config [scenario_record]) scenario_record (0%nat, [])
  = (Ret (ItemCreated {["issue_key" := PStr "PROJ-1";
                        "issue_id" := PInt 10001]}),
     (1%nat, [Jira.CallCreateIssue scenario_issue_data]))
  /\ Polarion._sync_requirement_to_work_item demo_polarion_adapter
       demo_polarion (PStr "PROJ") (scenario_config [scenario_record])
       scenario_record (0%nat, [])
     = (Ret (ItemCreated
               {["work_item_id" := PStr "WI-7";
                 "work_item_uri" :=
                   PStr "subterra:data-service:objects:/default/WI-7"]}),
        (1%nat, [Polarion.CallPost scenario_request])).
Proof.
destruct unlinked_record_one_create_call as [Hjira Hpolarion].
split.
- rewrite (Hjira nat demo_jira (PStr "PROJ")
             (scenario_config [scenario_record]) scenario_record
             scenario_issue_data 0%nat []); [vm_refl|vm_refl|vm_refl].
- rewrite (Hpolarion nat demo_polarion_adapter demo_polarion (PStr "PROJ")
             (scenario_config [scenario_record]) scenario_record
             scenario_request 0%nat []); [vm_refl|vm_refl|vm_refl].
Defined.

(** ** The Azure DevOps adapter *)

Section AzureSync.
Context {W : Type}.
Variable wit : AzureDevOps.WitClient W.
Variable core : AzureDevOps.CoreClient W.
Variable cfg : sync_config.

Lemma azure_sync_project_run project_id w w1 tr acc st' :
  truthy (cfg_project cfg) = true ->
  AzureDevOps.get_project core (cfg_project cfg) w = (Ret tt, w1) ->
  sync_loop
    (AzureDevOps._sync_requirement_to_work_item wit (cfg_project cfg) cfg)
    (cfg_requirements cfg) empty_sync
    (w1, tr ++ [AzureDevOps.CallGetProject (cfg_project cfg)])
    = (Ret acc, st') ->
  AzureDevOps.sync_project (Some wit) (Some core) project_id cfg (w, tr)
    = (Ret (format_success_response AzureDevOps.name (sync_results_dict acc)),
       st').
Proof.
intros Hkey Hproj Hloop.
unfold AzureDevOps.sync_project, catch_all, catch_class, mbind, remote, mret.
rewrite Hkey. cbn [negb fst snd]. rewrite Hproj, Hloop. reflexivity.
Qed.

Lemma azure_unlinked_create_fails project requirement st msg st' :
  truthy (dict_get requirement "ado_work_item_id" PNone) = false ->
  fails_with (AzureDevOps._create_work_item wit project requirement cfg st)
             msg st' ->
  AzureDevOps._sync_requirement_to_work_item wit project cfg requirement st
    = (Ret (ItemFailed msg), st').
Proof.
intros Hkey Hfail.
unfold AzureDevOps._sync_requirement_to_work_item, catch_all.
rewrite Hkey.
destruct Hfail as [->|(e & -> & ->)]; reflexivity.
Qed.
End AzureSync.

(** What a caller reads in the response of a batch whose loop ended with
    the counters [sync]: the success flag, the adapter's name, the three
    counters and the list of error entries. *)
Lemma sync_response_fields (adapter_name : string) (sync : SyncResult) :
  let response :=
    format_success_response adapter_name (sync_results_dict sync) in
  response !! "success" = Some (PBool true) /\
  response !! "adapter" = Some (PStr adapter_name) /\
  response !! "synced_items" = Some (PInt (synced_items sync)) /\
  response !! "created_items" = Some (PInt (created_items sync)) /\
  response !! "updated_items" = Some (PInt (updated_items sync)) /\
  response !! "errors"
  = Some (PList (map (fun entry : pyval * pyval =>
                        PDict [("req_id", entry.1); ("error", entry.2)])
                     (errors sync))).
Proof.
cbv zeta. unfold format_success_response.
destruct (decide (sync_results_dict sync = ∅)) as [Hempty|_].
{ apply (f_equal (fun m : envelope => m !! "synced_items")) in Hempty.
  unfold sync_results_dict in Hempty.
  rewrite lookup_insert_eq, lookup_empty in Hempty. discriminate. }
unfold sync_results_dict.
repeat split;
  first [ apply lookup_union_Some_l; by simplify_map_eq
        | rewrite lookup_union_r by (by simplify_map_eq);
          by simplify_map_eq ].
Qed.

(** C4: in a batch where one record, holding no remote id, has its create
    call fail (with an error result or by raising) and every other record
    syncs successfully, [sync_project] goes through the whole batch and
    returns, without raising, a response whose ["success"] is [True],
    whose ["synced_items"] is the batch length minus one, shared between
    ["created_items"] and ["updated_items"], and whose ["errors"] holds
    exactly one entry: the failing record's [req_id] with the error
    message.  Stated for Jira and for Azure DevOps. *)
Theorem sync_project_partial_failure :
  (forall (W : Type) (client : Jira.Client W) (project_id : string)
          (cfg : sync_config) (pre post : list (gmap string pyval))
          (r : gmap string pyval) (w w1 : W)
          (st2 st3 st4 : W * list Jira.call) (msg : string),
     cfg_requirements cfg = pre ++ r :: post ->
     truthy (cfg_project cfg) = true ->
     Jira.project client (cfg_project cfg) w = (Ret tt, w1) ->
     all_succeed (Jira._sync_requirement_to_issue client (cfg_project cfg) cfg)
       pre (w1, [Jira.CallProject (cfg_project cfg)]) = (true, st2) ->
     truthy (dict_get r "jira_issue_key" PNone) = false ->
     fails_with (Jira._create_jira_issue client (cfg_project cfg) r cfg st2)
                msg st3 ->
     all_succeed (Jira._sync_requirement_to_issue client (cfg_project cfg) cfg)
       post st3 = (true, st4) ->
     exists (created updated : Z) (response : envelope),
       Jira.sync_project (Some client) project_id cfg (w, [])
       = (Ret response, st4) /\
       response !! "success" = Some (PBool true) /\
       response !! "synced_items"
       = Some (PInt (Z.of_nat (length (cfg_requirements cfg)) - 1)) /\
       response !! "created_items" = Some (PInt created) /\
       response !! "updated_items" = Some (PInt updated) /\
       created + updated = Z.of_nat (length (cfg_requirements cfg)) - 1 /\
       response !! "errors"
       = Some (PList [PDict [("req_id", dict_get r "req_id" PNone);
                             ("error", PStr msg)]]))
  /\
  (forall (W : Type) (wit : AzureDevOps.WitClient W)
          (core : AzureDevOps.CoreClient W) (project_id : string)
          (cfg : sync_config) (pre post : list (gmap string pyval))
          (r : gmap string pyval) (w w1 : W)
          (st2 st3 st4 : W * list AzureDevOps.call) (msg : string),
     cfg_requirements cfg = pre ++ r :: post ->
     truthy (cfg_project cfg) = true ->
     AzureDevOps.get_project core (cfg_project cfg) w = (Ret tt, w1) ->
     all_succeed
       (AzureDevOps._sync_requirement_to_work_item wit (cfg_project cfg) cfg)
       pre (w1, [AzureDevOps.CallGetProject (cfg_project cfg)]) = (true, st2) ->
     truthy (dict_get r "ado_work_item_id" PNone) = false ->
     fails_with
       (AzureDevOps._create_work_item wit (cfg_project cfg) r cfg st2)
       msg st3 ->
     all_succeed
       (AzureDevOps._sync_requirement_to_work_item wit (cfg_project cfg) cfg)
       post st3 = (true, st4) ->
     exists (created updated : Z) (response : envelope),
       AzureDevOps.sync_project (Some wit) (Some core) project_id cfg (w, [])
       = (Ret response, st4) /\
       response !! "success" = Some (PBool true) /\
       response !! "synced_items"
       = Some (PInt (Z.of_nat (length (cfg_requirements cfg)) - 1)) /\
       response !! "created_items" = Some (PInt created) /\
       response !! "updated_items" = Some (PInt updated) /\
       created + updated = Z.of_nat (length (cfg_requirements cfg)) - 1 /\
       response !! "errors"
       = Some (PList [PDict [("req_id", dict_get r "req_id" PNone);
                             ("error", PStr msg)]])).
Proof.
split.
- intros W client project_id cfg pre post r w w1 st2 st3 st4 msg
         Hreqs Hkey Hproj Hpre Hunlinked Hfail Hpost.
  destruct (sync_loop_one_failure
              (Jira._sync_requirement_to_issue client (cfg_project cfg) cfg)
              pre r post _ st2 st3 st4 msg Hpre)
    as (created & updated & Hsum & Hloop); [|exact Hpost|].
  { left. by apply jira_unlinked_create_fails. }
  destruct (sync_response_fields Jira.name
              (mkSync (Z.of_nat (length (pre ++ r :: post)) - 1) created updated
                      [error_entry r msg]))
    as (Hsuccess & _ & Hsynced & Hcreated & Hupdated & Herrors).
  rewrite Hreqs. eexists created, updated, _. split.
  { apply (jira_sync_project_run client cfg project_id w w1 []);
      [done|done|]. rewrite Hreqs. exact Hloop. }
  repeat split; assumption.
- intros W wit core project_id cfg pre post r w w1 st2 st3 st4 msg
         Hreqs Hkey Hproj Hpre Hunlinked Hfail Hpost.
  destruct (sync_loop_one_failure
              (AzureDevOps._sync_requirement_to_work_item wit
                 (cfg_project cfg) cfg)
              pre r post _ st2 st3 st4 msg Hpre)
    as (created & updated & Hsum & Hloop); [|exact Hpost|].
  { left. by apply azure_unlinked_create_fails. }
  destruct (sync_response_fields AzureDevOps.name
              (mkSync (Z.of_nat (length (pre ++ r :: post)) - 1) created updated
                      [error_entry r msg]))
    as (Hsuccess & _ & Hsynced & Hcreated & Hupdated & Herrors).
  rewrite Hreqs. eexists created, updated, _. split.
  { apply (azure_sync_project_run wit core cfg project_id w w1 []);
      [done|done|]. rewrite Hreqs. exact Hloop. }
  repeat split; assumption.
Qed.

Lemma sync_project_partial_failure_witness :
  (exists (created updated : Z) (response : envelope),
     Jira.sync_project (Some demo_jira) "P1" (scenario_config mixed_batch)
                       (0%nat, [])
     = (Ret response,
        (2%nat, [Jira.CallProject (PStr "PROJ");
                 Jira.CallCreateIssue scenario_issue_data;
                 Jira.CallCreateIssue empty_issue_data;
                 Jira.CallCreateIssue audit_issue_data])) /\
     response !! "success" = Some (PBool true) /\
     response !! "synced_items" = Some (PInt 2) /\
     response !! "created_items" = Some (PInt created) /\
     response !! "updated_items" = Some (PInt updated) /\
     created + updated = 2 /\
     response !! "errors"
     = Some (PList [PDict [("req_id", PStr "R2");
                           ("error", PStr "summary is required")]]))
  /\
  (exists (created updated : Z) (response : envelope),
     (AzureDevOps.sync_project (Some demo_wit) (Some demo_core) "P1"
        (scenario_config mixed_batch) (0%nat, [])).1
     = Ret response /\
     response !! "success" = Some (PBool true) /\
     response !! "synced_items" = Some (PInt 2) /\
     response !! "created_items" = Some (PInt created) /\
     response !! "updated_items" = Some (PInt updated) /\
     created + updated = 2 /\
     response !! "errors"
     = Some (PList [PDict [("req_id", PStr "R2");
                           ("error", PStr "title is required")]])).
Proof.
destruct sync_project_partial_failure as [Hjira Hazure].
split.
- destruct (Hjira nat demo_jira "P1" (scenario_config mixed_batch)
              [scenario_record] [audit_record] empty_record 0%nat 0%nat
              (1%nat, [Jira.CallProject (PStr "PROJ");
                       Jira.CallCreateIssue scenario_issue_data])
              (1%nat, [Jira.CallProject (PStr "PROJ");
                       Jira.CallCreateIssue scenario_issue_data;
                       Jira.CallCreateIssue empty_issue_data])
              (2%nat, [Jira.CallProject (PStr "PROJ");
                       Jira.CallCreateIssue scenario_issue_data;
                       Jira.CallCreateIssue empty_issue_data;
                       Jira.CallCreateIssue audit_issue_data])
              "summary is required")
    as (created & updated & response & Hrun & Hfields);
    [vm_refl|vm_refl|vm_refl|vm_refl|vm_refl|left; vm_refl|vm_refl|].
  exists created, updated, response. split; [exact Hrun|exact Hfields].
- destruct (Hazure nat demo_wit demo_core "P1" (scenario_config mixed_batch)
              [scenario_record] [audit_record] empty_record 0%nat 0%nat
              (all_succeed
                 (AzureDevOps._sync_requirement_to_work_item demo_wit
                    (PStr "PROJ") (scenario_config mixed_batch))
                 [scenario_record]
                 (0%nat, [AzureDevOps.CallGetProject (PStr "PROJ")])).2
              (AzureDevOps._create_work_item demo_wit (PStr "PROJ")
                 empty_record (scenario_config mixed_batch)
                 (all_succeed
                    (AzureDevOps._sync_requirement_to_work_item demo_wit
                       (PStr "PROJ") (scenario_config mixed_batch))
                    [scenario_record]
                    (0%nat, [AzureDevOps.CallGetProject (PStr "PROJ")])).2).2
              (AzureDevOps.sync_project (Some demo_wit) (Some demo_core) "P1"
                 (scenario_config mixed_batch) (0%nat, [])).2
              "title is required")
    as (created & updated & response & Hrun & Hfields);
    [vm_refl|vm_refl|vm_refl|vm_refl|vm_refl|left; vm_refl|vm_refl|].
  exists created, updated, response. split; [by rewrite Hrun|exact Hfields].
Defined.

(** ** Single-item operations *)

Lemma py_int_abc :
  py_int "abc"
  = Raise (mkExn ValueError "invalid literal for int() with base 10: 'abc'").
Proof. vm_refl. Qed.

(** C5 (what the code does instead): an exception that is not of the
    backend library's class leaves [update_item] of the Azure DevOps and
    Jira adapters as a raised exception.  With any initialized Azure DevOps
    client, the item id ["abc"] makes [int(item_id)] raise a [ValueError]
    that reaches the caller, no remote call being made; with an unreachable
    Jira server the connection error of the issue lookup reaches the
    caller.  Polarion's [update_item], which catches every exception,
    always returns a response. *)
Theorem update_item_exception_escapes :
  (forall (W : Type) (wit : AzureDevOps.WitClient W)
          (item_data : gmap string pyval) (field_mapping : field_mapping_t)
          (st : W * list AzureDevOps.call),
     AzureDevOps.update_item (Some wit) "abc" item_data field_mapping st
     = (Raise (mkExn ValueError
                 "invalid literal for int() with base 10: 'abc'"), st))
  /\ Jira.update_item (Some unreachable_jira) "PROJ-1" ∅ [] (tt, [])
     = (Raise (mkExn ConnectionError "Connection refused"),
        (tt, [Jira.CallIssue (PStr "PROJ-1")]))
  /\ (forall (W : Type) (a : Polarion.Adapter)
             (client : option (Polarion.Client W)) (item_id : string)
             (item_data : gmap string pyval) (field_mapping : field_mapping_t)
             (st : W * list Polarion.call),
        exists response : envelope,
          (Polarion.update_item a client item_id item_data field_mapping st).1
          = Ret response).
Proof.
split; [|split].
- intros W wit item_data field_mapping st.
  unfold AzureDevOps.update_item, catch_class, mbind, mlift.
  destruct (map_fields_total item_data field_mapping) as [m ->].
  rewrite py_int_abc. reflexivity.
- reflexivity.
- intros W a client item_id item_data field_mapping st.
  unfold Polarion.update_item, catch_all.
  match goal with
  | |- exists _, (match ?body with _ => _ end).1 = _ =>
    destruct body as [[response|e] st']
  end; simpl; eauto.
Qed.


(** * Further properties *)

(** ** map_fields: which entries matter *)

Section MapFieldsMore.
Implicit Types (source_data acc m : gmap string pyval).
Implicit Types (fm : field_mapping_t).

Lemma map_fields_loop_filter source_data fm : forall acc,
  map_fields_loop source_data (filter (fun e => contributes source_data e) fm)
                  acc
  = map_fields_loop source_data fm acc.
Proof.
induction fm as [|[s t] fm IH]; intros acc; [done|].
destruct (contributes source_data (s, t)) eqn:Hc.
- rewrite filter_cons_True by (apply Is_true_true_2; exact Hc).
  unfold contributes in Hc. cbn [fst snd] in Hc.
  cbn [map_fields_loop].
  destruct (source_data !! s) as [v|]; [|discriminate].
  destruct t as [name|[mf|] tr]; cbn [target_name] in Hc; try discriminate.
  + apply IH.
  + destruct tr as [[f|x]|]; try apply IH.
    destruct (f v); [apply IH|done].
- rewrite filter_cons_False by (apply Is_true_false_2; exact Hc).
  unfold contributes in Hc. cbn [fst snd] in Hc.
  cbn [map_fields_loop]. rewrite IH.
  destruct (source_data !! s) as [v|]; [|done].
  destruct t as [name|[mf|] tr]; cbn [target_name] in Hc; try discriminate.
  done.
Qed.

Lemma map_fields_loop_no_raise source_data fm : forall acc,
  (forall entry, entry ∈ fm -> ~ entry_raises source_data entry) ->
  exists m, map_fields_loop source_data fm acc = Ret m.
Proof.
induction fm as [|[s t] fm IH]; intros acc Hok; cbn [map_fields_loop];
  [eauto|].
assert (Hrest : forall entry, entry ∈ fm -> ~ entry_raises source_data entry).
{ intros entry Hin. apply Hok. by apply list_elem_of_further. }
destruct (source_data !! s) as [v|] eqn:Hs; [|by apply IH].
destruct t as [name|[mf|] tr]; try by apply IH.
destruct tr as [[f|x]|]; try by apply IH.
destruct (f v) as [v'|e] eqn:Hf; [by apply IH|].
exfalso. apply (Hok (s, Nested (Some mf) (Some (Callable f))));
  [apply list_elem_of_here|].
exists v, e. cbn. split; [done|]. split; [by eexists|done].
Qed.

(** Entries that do not write to [name] leave its entry alone. *)
Lemma map_fields_loop_untouched source_data name fm : forall acc m,
  map_fields_loop source_data fm acc = Ret m ->
  (forall s t, (s, t) ∈ fm -> is_Some (source_data !! s) ->
               target_name t <> Some name) ->
  m !! name = acc !! name.
Proof.
induction fm as [|[s t] fm IH]; intros acc m Hrun Hother;
  cbn [map_fields_loop] in Hrun; [congruence|].
assert (Hrest : forall s' t', (s', t') ∈ fm -> is_Some (source_data !! s') ->
                              target_name t' <> Some name).
{ intros s' t' Hin. apply Hother. by apply list_elem_of_further. }
destruct (source_data !! s) as [v|] eqn:Hs; [|by eapply IH].
assert (Hthis : target_name t <> Some name).
{ apply (Hother s t); [apply list_elem_of_here|by eexists]. }
destruct t as [n|[mf|] tr]; cbn [target_name] in Hthis.
- rewrite (IH _ _ Hrun Hrest). apply lookup_insert_ne. congruence.
- destruct tr as [[f|x]|].
  + destruct (f v) as [v'|e]; [|discriminate].
    rewrite (IH _ _ Hrun Hrest). apply lookup_insert_ne. congruence.
  + rewrite (IH _ _ Hrun Hrest). apply lookup_insert_ne. congruence.
  + rewrite (IH _ _ Hrun Hrest). apply lookup_insert_ne. congruence.
- by eapply IH.
Qed.
End MapFieldsMore.

(** X1: the entries [map_fields] skips really play no part: dropping from
    the mapping every entry whose source attribute is not in the record,
    and every structured entry without a ["field"], gives the same
    result. *)
Theorem map_fields_skipped_entries_irrelevant :
  forall (source_data : gmap string pyval) (fm : field_mapping_t),
    map_fields source_data (filter (fun e => contributes source_data e) fm)
    = map_fields source_data fm.
Proof.
intros source_data fm. unfold map_fields.
by rewrite map_fields_loop_filter.
Qed.

(** X2: the last writer wins.  When no transform raises, an entry whose
    source attribute is in the record puts that value, after its transform,
    under its target field, provided no later entry that [map_fields] acts
    upon has the same target. *)
Theorem map_fields_last_writer :
  forall (source_data : gmap string pyval) (pre post : field_mapping_t)
         (s : string) (t : target_field) (name : string) (v v' : pyval),
    (forall entry, entry ∈ pre ++ (s, t) :: post ->
                   ~ entry_raises source_data entry) ->
    source_data !! s = Some v ->
    target_name t = Some name ->
    target_value t v = Ret v' ->
    (forall s' t', (s', t') ∈ post -> is_Some (source_data !! s') ->
                   target_name t' <> Some name) ->
    exists m, map_fields source_data (pre ++ (s, t) :: post) = Ret m
              /\ m !! name = Some v'.
Proof.
intros source_data pre post s t name v v' Hok Hs Hname Hval Hlater.
unfold map_fields, try_except. rewrite map_fields_loop_app.
destruct (map_fields_loop_no_raise source_data pre ∅) as [acc ->].
{ intros entry Hin. apply Hok. apply elem_of_app. by left. }
cbn [res_bind].
destruct (map_fields_loop_no_raise source_data ((s, t) :: post) acc)
  as [m Hm].
{ intros entry Hin. apply Hok. apply elem_of_app. by right. }
rewrite Hm. exists m. split; [done|].
cbn [map_fields_loop] in Hm. rewrite Hs in Hm.
destruct t as [n|[mf|] tr]; cbn in Hname, Hval; try discriminate.
- injection Hname as ->. injection Hval as ->.
  rewrite (map_fields_loop_untouched _ name _ _ _ Hm Hlater).
  apply lookup_insert_eq.
- injection Hname as ->.
  destruct tr as [[f|x]|].
  + rewrite Hval in Hm.
    rewrite (map_fields_loop_untouched _ name _ _ _ Hm Hlater).
    apply lookup_insert_eq.
  + injection Hval as ->.
    rewrite (map_fields_loop_untouched _ name _ _ _ Hm Hlater).
    apply lookup_insert_eq.
  + injection Hval as ->.
    rewrite (map_fields_loop_untouched _ name _ _ _ Hm Hlater).
    apply lookup_insert_eq.
Qed.

Lemma flat_entry_never_raises (source_data : gmap string pyval)
    (s name : string) :
  ~ entry_raises source_data (s, Flat name).
Proof. intros (v & e & _ & _ & Hval). discriminate. Qed.

Lemma map_fields_last_writer_witness :
  exists m,
    map_fields scenario_record
      ([("title", Flat "summary")] ++ ("text", Flat "summary")
         :: [("req_id", Flat "id")]) = Ret m
    /\ m !! "summary" = Some (PStr "...").
Proof.
apply (map_fields_last_writer scenario_record
         [("title", Flat "summary")] [("req_id", Flat "id")]
         "text" (Flat "summary") "summary" (PStr "...") (PStr "...")).
- intros entry Hin.
  apply elem_of_app in Hin as [Hin|Hin].
  + apply list_elem_of_singleton in Hin as ->. apply flat_entry_never_raises.
  + apply elem_of_cons in Hin as [->|Hin]; [apply flat_entry_never_raises|].
    apply list_elem_of_singleton in Hin as ->. apply flat_entry_never_raises.
- vm_refl.
- reflexivity.
- reflexivity.
- intros s' t' Hin _. apply list_elem_of_singleton in Hin.
  injection Hin as -> ->. discriminate.
Defined.

(** ** validate_config *)

(** X3: [validate_config] accepts a configuration exactly when every
    required field is present with a true value; a field that is missing,
    [None], empty or zero makes it return false. *)
Theorem validate_config_spec :
  forall (config : gmap string pyval) (required_fields : list string),
    validate_config config required_fields = true <->
    forall field, field ∈ required_fields ->
      exists v, config !! field = Some v /\ truthy v = true.
Proof.
intros config required_fields.
induction required_fields as [|field rest IH]; cbn [validate_config].
- split; [|done]. intros _ field Hin. by apply elem_of_nil in Hin.
- split.
  + intros Hrun f Hin.
    destruct (config !! field) as [v|] eqn:Hv; [|discriminate].
    destruct (truthy v) eqn:Ht; [|discriminate].
    apply elem_of_cons in Hin as [->|Hin]; [eauto|].
    by apply IH.
  + intros Hall.
    destruct (Hall field) as (v & -> & ->); [apply list_elem_of_here|].
    apply IH. intros f Hin. apply Hall. by apply list_elem_of_further.
Qed.

(** ** retry_operation: the time spent waiting *)




(** ** sanitize_data *)

(** Induction on values, through the lists and dictionaries they nest. *)
Lemma pyval_nested_ind (P : pyval -> Prop) :
  P PNone -> (forall b, P (PBool b)) -> (forall z, P (PInt z)) ->
  (forall s, P (PStr s)) ->
  (forall l, Forall P l -> P (PList l)) ->
  (forall d, Forall (fun entry => P entry.2) d -> P (PDict d)) ->
  forall v, P v.
Proof.
intros HNone HBool HInt HStr HList HDict.
fix IH 1. intros [ |b|z|s|l|d].
- exact HNone.
- apply HBool.
- apply HInt.
- apply HStr.
- apply HList. induction l as [|x l IHl]; constructor; [apply IH|exact IHl].
- apply HDict.
  induction d as [|[k x] d IHd]; constructor; [apply IH|exact IHd].
Qed.

Lemma sanitize_item_dict d :
  sanitize_item (PDict d) = PDict (sanitize_data d).
Proof. reflexivity. Qed.

Lemma map_twice_stable {A : Type} (f : A -> A) (l : list A) :
  Forall (fun y => f (f y) = f y) l -> map f (map f l) = map f l.
Proof.
induction 1 as [|y l Hy Hl IH]; [done|]. cbn [map]. by f_equal.
Qed.

Lemma sanitize_entry_stable (entry : string * pyval) :
  sanitize_stable entry.2 ->
  sanitize_entry (sanitize_entry entry) = sanitize_entry entry.
Proof.
destruct entry as [k x]. intros [Hx Hitems]. unfold sanitize_entry.
cbn [fst snd] in *. f_equal.
destruct (is_sensitive k) eqn:Hk; [done|].
destruct x as [ | | | |l|d]; try reflexivity.
- f_equal. by apply map_twice_stable.
- exact Hx.
Qed.

Lemma sanitize_item_stable : forall v, sanitize_stable v.
Proof.
induction v as [ | | | |l IHl|d IHd] using pyval_nested_ind;
  try (split; [reflexivity|exact I]).
- split; [reflexivity|].
  eapply Forall_impl; [exact IHl|]. by intros y [Hy _].
- split; [|exact I].
  rewrite !sanitize_item_dict. f_equal. unfold sanitize_data.
  apply map_twice_stable.
  eapply Forall_impl; [exact IHd|].
  intros entry Hentry. by apply sanitize_entry_stable.
Qed.

Lemma append_cons (c : ascii) (s t : string) :
  String c s +:+ t = String c (s +:+ t).
Proof. reflexivity. Qed.

Lemma append_empty_r (s : string) : s +:+ EmptyString = s.
Proof.
induction s as [|c s IH]; [reflexivity|]. by rewrite append_cons, IH.
Qed.

Lemma append_snoc (cur : string) (c : ascii) (rest : string) :
  (cur +:+ String c EmptyString) +:+ rest = cur +:+ String c rest.
Proof.
induction cur as [|d cur IH]; [reflexivity|].
by rewrite !append_cons, IH.
Qed.

(** [String.prefix sub s] says that [s] starts with [sub]. *)
Lemma prefix_append (sub s : string) :
  String.prefix sub s = true <-> exists post, s = sub +:+ post.
Proof.
revert s. induction sub as [|a sub IH]; intros s.
- split; [intros _; by exists s|intros _; by destruct s].
- destruct s as [|b s].
  + split; [discriminate|]. intros [post H]. rewrite append_cons in H.
    discriminate.
  + cbn [String.prefix]. destruct (ascii_dec a b) as [->|Hne].
    * rewrite IH. split; intros [post H]; exists post.
      -- by rewrite append_cons, H.
      -- rewrite append_cons in H. by injection H.
    * split; [discriminate|]. intros [post H]. rewrite append_cons in H.
      injection H as Hab _. by destruct Hne.
Qed.

(** [sub in s]: [s] is some text, then [sub], then some text. *)
Lemma is_substring_append (sub s : string) :
  is_substring sub s = true <-> exists pre post, s = pre +:+ sub +:+ post.
Proof.
induction s as [|c s IH]; cbn [is_substring].
- rewrite orb_false_r, prefix_append. split.
  + intros [post H]. by exists EmptyString, post.
  + intros (pre & post & H). destruct pre as [|d pre].
    * by exists post.
    * rewrite append_cons in H. discriminate.
- rewrite orb_true_iff, prefix_append, IH. split.
  + intros [[post H]|(pre & post & H)].
    * by exists EmptyString, post.
    * exists (String c pre), post. by rewrite append_cons, H.
  + intros (pre & post & H). destruct pre as [|d pre].
    * left. by exists post.
    * right. rewrite append_cons in H. injection H as _ H.
      by exists pre, post.
Qed.

(** The keys that [sanitize_data] redacts: those whose lower-case form
    contains one of the five words. *)
Lemma is_sensitive_words (key : string) :
  is_sensitive key = true <->
  exists word pre post,
    word ∈ ["password"; "token"; "secret"; "key"; "auth"] /\
    lower key = pre +:+ word +:+ post.
Proof.
unfold is_sensitive, sensitive_fields. rewrite existsb_exists. split.
- intros (word & Hin & Hsub). apply is_substring_append in Hsub.
  destruct Hsub as (pre & post & Heq).
  exists word, pre, post. split; [by apply list_elem_of_In|exact Heq].
- intros (word & pre & post & Hin & Heq). exists word.
  split; [by apply list_elem_of_In|].
  apply is_substring_append. by exists pre, post.
Qed.

Lemma is_substring_prefix sub s :
  String.prefix sub s = true -> is_substring sub s = true.
Proof. intros H. destruct s; cbn [is_substring]; by rewrite H. Qed.

(** X5: [sanitize_data] keeps the keys of a dictionary, in their order;
    puts the redaction marker under every key whose lower-case form
    contains "password", "token", "secret", "key" or "auth"; leaves alone
    the value of every other key when it is neither a dictionary nor a
    list; and changes nothing when applied a second time. *)
Theorem sanitize_data_spec :
  forall data : list (string * pyval),
    (sanitize_data data).*1 = data.*1 /\
    (forall key v word pre post,
       (key, v) ∈ sanitize_data data ->
       word ∈ ["password"; "token"; "secret"; "key"; "auth"] ->
       lower key = pre +:+ word +:+ post ->
       v = PStr "***REDACTED***") /\
    (forall key v,
       (key, v) ∈ data ->
       (forall word pre post,
          word ∈ ["password"; "token"; "secret"; "key"; "auth"] ->
          lower key <> pre +:+ word +:+ post) ->
       match v with
       | PDict _ | PList _ => True
       | _ => (key, v) ∈ sanitize_data data
       end) /\
    sanitize_data (sanitize_data data) = sanitize_data data.
Proof.
intros data. split; [|split; [|split]].
- unfold sanitize_data. rewrite <- list_fmap_compose. by apply list_fmap_ext.
- intros key v word pre post Hin Hword Hkey.
  assert (Hsens : is_sensitive key = true)
    by (apply is_sensitive_words; eauto).
  unfold sanitize_data in Hin.
  apply list_elem_of_fmap in Hin as ([k x] & Heq & _).
  unfold sanitize_entry in Heq. cbn [fst snd] in Heq.
  injection Heq as -> ->. by rewrite Hsens.
- intros key v Hin Hkey.
  assert (Hsens : is_sensitive key = false).
  { destruct (is_sensitive key) eqn:E; [|done].
    apply is_sensitive_words in E as (word & pre & post & Hword & Heq).
    by destruct (Hkey word pre post Hword). }
  assert (Hentry : sanitize_entry (key, v) ∈ sanitize_data data).
  { unfold sanitize_data. apply list_elem_of_fmap. eauto. }
  unfold sanitize_entry in Hentry. cbn [fst snd] in Hentry.
  rewrite Hsens in Hentry. by destruct v.
- unfold sanitize_data. apply map_twice_stable.
  apply Forall_forall. intros entry _.
  apply sanitize_entry_stable, sanitize_item_stable.
Qed.

(** X6: the recursion of [sanitize_data] stops at a list inside a list.
    Under a key that is not sensitive, a list none of whose items is a
    dictionary is returned as it is, whatever its items contain. *)
Theorem sanitize_data_list_items :
  forall (key : string) (l : list pyval),
    is_sensitive key = false ->
    Forall (fun item => is_dict item = false) l ->
    sanitize_data [(key, PList l)] = [(key, PList l)].
Proof.
intros key l Hkey Hitems. unfold sanitize_data, sanitize_entry.
cbn [map fst snd]. rewrite Hkey. do 3 f_equal.
induction Hitems as [|item l Hitem Hl IH]; [done|].
cbn [map]. f_equal; [|exact IH]. by destruct item.
Qed.

(** A configuration as it is logged, and a record with a secret two lists
    deep. *)
Lemma sanitize_data_list_items_witness :
  sanitize_data
    [("api_token", PStr "s3cr3t");
     ("servers", PList [PList [PDict [("password", PStr "hunter2")]]])]
  = [("api_token", redacted);
     ("servers", PList [PList [PDict [("password", PStr "hunter2")]]])]
  /\ sanitize_data
       [("servers", PList [PList [PDict [("password", PStr "hunter2")]]])]
     = [("servers", PList [PList [PDict [("password", PStr "hunter2")]]])].
Proof.
split; [vm_refl|].
apply sanitize_data_list_items; [vm_refl|].
constructor; [reflexivity|constructor].
Defined.

(** ** sync_project: what every batch call returns *)

Section SyncAccounting.
Context {S : Type}.
Variable sync_one : gmap string pyval -> M S item_result.

(** The loop never raises; it counts every record once, as synced (created
    or updated) or as an error, and the errors come in the order of the
    records. *)
Lemma sync_loop_accounting l : forall acc st,
  exists acc' st' es,
    sync_loop sync_one l acc st = (Ret acc', st') /\
    errors acc' = errors acc ++ es /\
    es.*1 `sublist_of` (fun r => dict_get r "req_id" PNone) <$> l /\
    created_items acc' + updated_items acc' - synced_items acc'
      = created_items acc + updated_items acc - synced_items acc /\
    synced_items acc' + Z.of_nat (length es)
      = synced_items acc + Z.of_nat (length l).
Proof.
induction l as [|r l IH]; intros acc st; cbn [sync_loop].
- exists acc, st, []. rewrite app_nil_r. repeat split; try done; cbn; lia.
- destruct (sync_one r st) as [out st1].
  destruct (IH (tally r out acc) st1)
    as (acc' & st' & es & Hrun & He & Hsub & Hcu & Hn).
  exists acc', st'.
  destruct out as [[d|d|msg]|e];
    cbn [tally errors synced_items created_items updated_items] in *.
  + exists es. rewrite Hrun. repeat split; try done.
    * cbn [fmap list_fmap]. by apply sublist_cons.
    * lia.
    * cbn [length]. lia.
  + exists es. rewrite Hrun. repeat split; try done.
    * cbn [fmap list_fmap]. by apply sublist_cons.
    * lia.
    * cbn [length]. lia.
  + exists (error_entry r msg :: es). rewrite Hrun, He, <- app_assoc.
    repeat split; try done.
    * cbn [fmap list_fmap error_entry fst]. by apply sublist_skip.
    * cbn [length]. lia.
  + exists (error_entry r (str_exn e) :: es). rewrite Hrun, He, <- app_assoc.
    repeat split; try done.
    * cbn [fmap list_fmap error_entry fst]. by apply sublist_skip.
    * cbn [length]. lia.
Qed.
End SyncAccounting.

Lemma batch_report_of_loop {S : Type}
    (sync_one : gmap string pyval -> M S item_result)
    (cfg : sync_config) (adapter_name : string) (st : S) :
  exists r st',
    sync_loop sync_one (cfg_requirements cfg) empty_sync st = (Ret r, st') /\
    batch_report cfg adapter_name
      (format_success_response adapter_name (sync_results_dict r)).
Proof.
destruct (sync_loop_accounting sync_one (cfg_requirements cfg) empty_sync st)
  as (r & st' & es & Hrun & He & Hsub & Hcu & Hn).
exists r, st'. split; [exact Hrun|]. right. exists r.
cbn in He, Hcu, Hn. subst es. repeat split; [lia|lia|exact Hsub].
Qed.

(** X7: [sync_project] of each of the three adapters never raises.  It
    returns an error response, or a success response whose counters satisfy
    [synced_items = created_items + updated_items] and
    [synced_items + len(errors) = len(requirements)], the error entries
    carrying the [req_id]s of records of the batch in batch order. *)
Theorem sync_project_always_reports :
  (forall (W : Type) (client : option (Jira.Client W)) (project_id : string)
          (cfg : sync_config) (st : W * list Jira.call),
     exists response st',
       Jira.sync_project client project_id cfg st = (Ret response, st') /\
       batch_report cfg Jira.name response)
  /\
  (forall (W : Type) (wit : option (AzureDevOps.WitClient W))
          (core : option (AzureDevOps.CoreClient W)) (project_id : string)
          (cfg : sync_config) (st : W * list AzureDevOps.call),
     exists response st',
       AzureDevOps.sync_project wit core project_id cfg st
         = (Ret response, st') /\
       batch_report cfg AzureDevOps.name response)
  /\
  (forall (W : Type) (a : Polarion.Adapter)
          (client : option (Polarion.Client W)) (project_id : string)
          (cfg : sync_config) (st : W * list Polarion.call),
     exists response st',
       Polarion.sync_project a client project_id cfg st
         = (Ret response, st') /\
       batch_report cfg Polarion.name response).
Proof.
split; [|split].
- intros W client project_id cfg st.
  unfold Jira.sync_project, catch_all, catch_class, mbind, remote, mret.
  destruct client as [client|]; [|eexists _, _; split; [done|left; eauto]].
  destruct (truthy (cfg_project cfg)); cbn [negb];
    [|eexists _, _; split; [done|left; eauto]].
  destruct (Jira.project client (cfg_project cfg) st.1) as [[[]|e] w1].
  + destruct (batch_report_of_loop
                (Jira._sync_requirement_to_issue client (cfg_project cfg) cfg)
                cfg Jira.name (w1, st.2 ++ [Jira.CallProject (cfg_project cfg)]))
      as (r & st' & -> & Hreport).
    by eexists _, _.
  + destruct (decide (exn_cls e = JIRAError));
      eexists _, _; (split; [done|left; eauto]).
- intros W wit core project_id cfg st.
  unfold AzureDevOps.sync_project, catch_all, catch_class, mbind, remote,
    mret, mraise.
  destruct wit as [wit|]; [|eexists _, _; split; [done|left; eauto]].
  destruct (truthy (cfg_project cfg)); cbn [negb];
    [|eexists _, _; split; [done|left; eauto]].
  destruct core as [core|].
  + destruct (AzureDevOps.get_project core (cfg_project cfg) st.1)
      as [[[]|e] w1].
    * destruct (batch_report_of_loop
                  (AzureDevOps._sync_requirement_to_work_item wit
                     (cfg_project cfg) cfg)
                  cfg AzureDevOps.name
                  (w1, st.2 ++ [AzureDevOps.CallGetProject (cfg_project cfg)]))
        as (r & st' & -> & Hreport).
      by eexists _, _.
    * destruct (decide (exn_cls e = ClientException));
        eexists _, _; (split; [done|left; eauto]).
  + cbn. eexists _, _; split; [done|left; eauto].
- intros W a client project_id cfg st.
  unfold Polarion.sync_project, catch_all, mbind, mret.
  destruct (Polarion.ready a client) as [c|];
    [|eexists _, _; split; [done|left; eauto]].
  destruct (truthy (cfg_project cfg)); cbn [negb];
    [|eexists _, _; split; [done|left; eauto]].
  destruct (batch_report_of_loop
              (Polarion._sync_requirement_to_work_item a c (cfg_project cfg)
                 cfg)
              cfg Polarion.name st)
    as (r & st' & -> & Hreport).
  by eexists _, _.
Qed.

(** ** Jira: the update path *)

Section JiraUpdate.
Variable i : Jira.Issue.
Variable requirement : gmap string pyval.

Lemma changed_custom_fields_differ field_mapping :
  forall update_data : gmap string pyval,
    (forall k v, update_data !! k = Some v -> differs i k v) ->
    forall k v,
      Jira.changed_custom_fields i requirement field_mapping update_data !! k
        = Some v ->
      differs i k v.
Proof.
induction field_mapping as [|[req_field jira_field] rest IH];
  intros update_data Hacc k v; cbn [Jira.changed_custom_fields]; [apply Hacc|].
destruct (requirement !! req_field) as [new_value|]; [|by apply IH].
destruct (py_eq (dict_get (Jira.issue_fields i) jira_field PNone) new_value)
  eqn:Heq; [by apply IH|].
apply IH. intros k' v' Hlook.
destruct (decide (jira_field = k')) as [<-|Hne].
- rewrite lookup_insert_eq in Hlook. by injection Hlook as <-.
- rewrite lookup_insert_ne in Hlook by done. by apply Hacc.
Qed.
End JiraUpdate.

(** X8: the update Jira sends is a delta.  Every field in [update_data]
    holds a value that differs from the value of that field in the fetched
    issue. *)
Theorem jira_update_data_only_changes :
  forall (i : Jira.Issue) (requirement : gmap string pyval)
         (cfg : sync_config) (changes : gmap string pyval),
    Jira.update_data i requirement cfg = Ret changes ->
    forall k v, changes !! k = Some v ->
      py_eq (dict_get (Jira.issue_fields i) k PNone) v = false.
Proof.
intros i requirement cfg changes Hdata.
unfold Jira.update_data, res_bind in Hdata.
destruct (title_or_text requirement) as [new_summary|]; [|discriminate].
unfold Jira.field_attr in Hdata.
destruct (Jira.issue_fields i !! "summary") as [summary|] eqn:Hsum;
  [|discriminate].
destruct (Jira.issue_fields i !! "description") as [description|] eqn:Hdesc;
  [|discriminate].
injection Hdata as <-.
apply changed_custom_fields_differ. intros k v Hlook. unfold differs.
destruct (py_eq description (dict_get requirement "text" (PStr ""))) eqn:Hd.
- destruct (py_eq summary new_summary) eqn:Hs.
  + rewrite lookup_empty in Hlook. discriminate.
  + apply lookup_singleton_Some in Hlook as [<- <-].
    unfold dict_get. by rewrite Hsum.
- destruct (decide ("description" = k)) as [<-|Hne].
  + rewrite lookup_insert_eq in Hlook. injection Hlook as <-.
    unfold dict_get at 1. by rewrite Hdesc.
  + rewrite lookup_insert_ne in Hlook by done.
    destruct (py_eq summary new_summary) eqn:Hs.
    * rewrite lookup_empty in Hlook. discriminate.
    * apply lookup_singleton_Some in Hlook as [<- <-].
      unfold dict_get. by rewrite Hsum.
Qed.

Lemma jira_update_data_only_changes_witness :
  py_eq (dict_get
           (Jira.issue_fields
              (Jira.mkIssue (PStr "PROJ-1")
                 {["summary" := PStr "Login"; "description" := PStr "..."]}))
           "summary" PNone) (PStr "Validate login") = false.
Proof.
apply (jira_update_data_only_changes
         (Jira.mkIssue (PStr "PROJ-1")
            {["summary" := PStr "Login"; "description" := PStr "..."]})
         scenario_record (scenario_config [scenario_record])
         {["summary" := PStr "Validate login"]}); vm_refl.
Defined.

(** X9: the sync of a linked record whose [update_data] is not empty
    fetches the issue and makes one update call, with exactly
    [update_data]; the record counts as updated when that call returns and
    as failed, with the call's error, when it raises. *)
Theorem jira_sync_changed_record :
  forall (W : Type) (client : Jira.Client W) (project_key : pyval)
         (cfg : sync_config) (requirement changes : gmap string pyval)
         (key : pyval) (i : Jira.Issue) (w w1 : W) (tr : list Jira.call),
    dict_get requirement "jira_issue_key" PNone = key ->
    truthy key = true ->
    Jira.issue client key w = (Ret i, w1) ->
    Jira.update_data i requirement cfg = Ret changes ->
    changes <> ∅ ->
    Jira._sync_requirement_to_issue client project_key cfg requirement (w, tr)
    = (match (Jira.issue_update client i changes w1).1 with
       | Ret _ =>
         Ret (ItemUpdated
                {["issue_key" := key;
                  "updated_fields" :=
                    PList (PStr <$> elements (dom changes))]})
       | Raise e => Ret (ItemFailed (str_exn e))
       end,
       ((Jira.issue_update client i changes w1).2,
        (tr ++ [Jira.CallIssue key]) ++ [Jira.CallIssueUpdate key changes])).
Proof.
intros W client project_key cfg requirement changes key i w w1 tr
       Hkey Htruthy Hissue Hdata Hne.
unfold Jira._sync_requirement_to_issue, catch_all.
rewrite Hkey, Htruthy.
unfold Jira._update_jira_issue, catch_class, mbind, mlift, remote, mret.
cbn [fst snd]. rewrite Hissue, Hdata.
rewrite decide_False by done. cbn [fst snd].
destruct (Jira.issue_update client i changes w1) as [[[]|e] w2]; [done|].
cbn [fst snd]. by destruct (decide (exn_cls e = JIRAError)).
Qed.

Lemma jira_sync_changed_record_witness :
  Jira._sync_requirement_to_issue demo_jira (PStr "PROJ")
    (scenario_config [retitled_record]) retitled_record (0%nat, [])
  = (Ret (ItemUpdated
            {["issue_key" := PStr "PROJ-1";
              "updated_fields" := PList [PStr "summary"]]}),
     (0%nat, [Jira.CallIssue (PStr "PROJ-1");
              Jira.CallIssueUpdate (PStr "PROJ-1")
                {["summary" := PStr "Validate login v2"]}])).
Proof.
rewrite (jira_sync_changed_record nat demo_jira (PStr "PROJ")
           (scenario_config [retitled_record]) retitled_record
           {["summary" := PStr "Validate login v2"]} (PStr "PROJ-1")
           (Jira.mkIssue (PStr "PROJ-1")
              {["summary" := PStr "Validate login";
                "description" := PStr "..."]})
           0%nat 0%nat []);
  [vm_refl|vm_refl|vm_refl|vm_refl|vm_refl|apply map_non_empty_singleton].
Defined.

(** ** Jira: create calls of a batch *)

Section JiraCreates.
Context {W : Type}.
Variable client : Jira.Client W.
Variable cfg : sync_config.
Variable project_key : pyval.

Lemma jira_create_payloads_app tr1 tr2 :
  jira_create_payloads (tr1 ++ tr2)
  = jira_create_payloads tr1 ++ jira_create_payloads tr2.
Proof. apply omap_app. Qed.

(** The per-record sync adds a create call with the record's payload when
    the record is unlinked and the payload can be built, and no create
    call otherwise. *)
Lemma jira_sync_one_creates requirement w tr :
  jira_create_payloads
    (Jira._sync_requirement_to_issue client project_key cfg requirement
       (w, tr)).2.2
  = jira_create_payloads tr
    ++ from_option (fun f => [f]) []
         (jira_unlinked_payload project_key cfg requirement).
Proof.
unfold jira_unlinked_payload.
destruct (truthy (dict_get requirement "jira_issue_key" PNone)) eqn:Hkey.
- unfold Jira._sync_requirement_to_issue, catch_all. rewrite Hkey.
  unfold Jira._update_jira_issue, catch_class, mbind, mlift, remote, mret.
  cbn [fst snd from_option]. rewrite app_nil_r.
  destruct (Jira.issue client _ w) as [[i|e] w1]; cbn [fst snd].
  + destruct (Jira.update_data i requirement cfg) as [changes|e].
    * destruct (decide (changes = ∅)); cbn [fst snd].
      -- rewrite jira_create_payloads_app. cbn. by rewrite app_nil_r.
      -- destruct (Jira.issue_update client i changes w1) as [[[]|e] w2];
           cbn [fst snd];
           [|destruct (decide (exn_cls e = JIRAError)); cbn [fst snd]];
           rewrite !jira_create_payloads_app; cbn; by rewrite !app_nil_r.
    * destruct (decide (exn_cls e = JIRAError)); cbn [fst snd];
        rewrite jira_create_payloads_app; cbn; by rewrite app_nil_r.
  + destruct (decide (exn_cls e = JIRAError)); cbn [fst snd];
      rewrite jira_create_payloads_app; cbn; by rewrite app_nil_r.
- destruct (Jira.issue_data project_key requirement cfg) as [fields|e] eqn:Hd.
  + rewrite (jira_sync_unlinked_run client cfg _ _ _ _ _ Hkey Hd).
    cbn [fst snd from_option]. by rewrite jira_create_payloads_app.
  + unfold Jira._sync_requirement_to_issue, catch_all. rewrite Hkey.
    unfold Jira._create_jira_issue, catch_class, mbind, mlift, mret.
    rewrite Hd. cbn [from_option]. rewrite app_nil_r.
    by destruct (decide (exn_cls e = JIRAError)).
Qed.

Lemma jira_sync_loop_creates requirements : forall acc w tr,
  jira_create_payloads
    (sync_loop (Jira._sync_requirement_to_issue client project_key cfg)
               requirements acc (w, tr)).2.2
  = jira_create_payloads tr
    ++ omap (jira_unlinked_payload project_key cfg) requirements.
Proof.
induction requirements as [|r rest IH]; intros acc w tr; cbn [sync_loop].
- cbn. by rewrite app_nil_r.
- pose proof (jira_sync_one_creates r w tr) as Hone.
  destruct (Jira._sync_requirement_to_issue client project_key cfg r (w, tr))
    as [out [w1 tr1]].
  cbn [fst snd] in Hone. rewrite IH, Hone, <- app_assoc. f_equal.
  cbn [omap list_omap].
  by destruct (jira_unlinked_payload project_key cfg r).
Qed.
End JiraCreates.

(** X10: in a batch that Jira's [sync_project] gets to process (a project
    key is given and the project is found), the create calls made are, in
    batch order, exactly one for each record that holds no issue key and
    whose payload can be built, with that payload; a record that holds an
    issue key never causes a create call. *)
Theorem jira_sync_project_create_calls :
  forall (W : Type) (client : Jira.Client W) (project_id : string)
         (cfg : sync_config) (w w1 : W),
    truthy (cfg_project cfg) = true ->
    Jira.project client (cfg_project cfg) w = (Ret tt, w1) ->
    jira_create_payloads
      (Jira.sync_project (Some client) project_id cfg (w, [])).2.2
    = omap (jira_unlinked_payload (cfg_project cfg) cfg)
           (cfg_requirements cfg).
Proof.
intros W client project_id cfg w w1 Hkey Hproj.
destruct (sync_loop (Jira._sync_requirement_to_issue client (cfg_project cfg)
                       cfg)
            (cfg_requirements cfg) empty_sync
            (w1, [] ++ [Jira.CallProject (cfg_project cfg)]))
  as [[acc|e] st'] eqn:Hloop.
- rewrite (jira_sync_project_run client cfg project_id w w1 [] acc st'
             Hkey Hproj Hloop).
  cbn [snd].
  pose proof (jira_sync_loop_creates client cfg (cfg_project cfg)
                (cfg_requirements cfg) empty_sync w1
                ([] ++ [Jira.CallProject (cfg_project cfg)])) as Hc.
  rewrite Hloop in Hc. exact Hc.
- destruct (sync_loop_accounting
              (Jira._sync_requirement_to_issue client (cfg_project cfg) cfg)
              (cfg_requirements cfg) empty_sync
              (w1, [] ++ [Jira.CallProject (cfg_project cfg)]))
    as (acc' & st'' & es & Hrun & _).
  rewrite Hloop in Hrun. discriminate.
Qed.

Lemma jira_sync_project_create_calls_witness :
  jira_create_payloads
    (Jira.sync_project (Some demo_jira) "P1"
       (scenario_config [linked_record; scenario_record; audit_record])
       (0%nat, [])).2.2
  = [scenario_issue_data; audit_issue_data].
Proof.
rewrite (jira_sync_project_create_calls nat demo_jira "P1"
           (scenario_config [linked_record; scenario_record; audit_record])
           0%nat 0%nat); vm_refl.
Defined.

(** ** Azure DevOps and Polarion: the update paths *)


(** X12: Polarion's sync of a linked record compares nothing.  Whenever the
    request can be built it posts exactly one update request, whatever the
    record holds; the record counts as updated when the answer has status
    200 and as failed otherwise. *)
Theorem polarion_sync_linked_always_posts :
  forall (W : Type) (a : Polarion.Adapter) (client : Polarion.Client W)
         (project : pyval) (cfg : sync_config)
         (requirement : gmap string pyval) (id : pyval)
         (request : Polarion.Request) (w : W) (tr : list Polarion.call),
    dict_get requirement "polarion_work_item_id" PNone = id ->
    truthy id = true ->
    Polarion.update_request a id requirement = Ret request ->
    Polarion._sync_requirement_to_work_item a client project cfg requirement
      (w, tr)
    = (Ret (match (Polarion.post client request w).1 with
            | Ret response =>
              if Polarion.status_code response =? 200
              then ItemUpdated {["work_item_id" := id]}
              else ItemFailed "Failed to update work item"
            | Raise e => ItemFailed (str_exn e)
            end),
       ((Polarion.post client request w).2,
        tr ++ [Polarion.CallPost request])).
Proof.
intros W a client project cfg requirement id request w tr Hid Htruthy Hreq.
unfold Polarion._sync_requirement_to_work_item, catch_all.
rewrite Hid, Htruthy.
unfold Polarion._update_polarion_work_item, catch_all, mbind, mlift, remote,
  mret.
rewrite Hreq. cbn [fst snd].
destruct (Polarion.post client request w) as [[response|e] w1]; [|done].
cbn [fst snd]. by destruct (Polarion.status_code response =? 200).
Qed.


Lemma polarion_sync_linked_always_posts_witness :
  Polarion._sync_requirement_to_work_item demo_polarion_adapter demo_polarion
    (PStr "PROJ") (plain_config [polarion_linked_record])
    polarion_linked_record (0%nat, [])
  = (Ret (ItemUpdated {["work_item_id" := PStr "WI-7"]}),
     (1%nat,
      [Polarion.CallPost
         (Polarion.mkRequest (PStr "https://polarion.example.com")
            Polarion.tracker_path "updateWorkItem" (PStr "session-1")
            [("workItemURI", PStr "WI-7"); ("title", PStr "Validate login");
             ("description", PStr "...")])])).
Proof.
rewrite (polarion_sync_linked_always_posts nat demo_polarion_adapter
           demo_polarion (PStr "PROJ") (plain_config [polarion_linked_record])
           polarion_linked_record (PStr "WI-7")
           (Polarion.mkRequest (PStr "https://polarion.example.com")
              Polarion.tracker_path "updateWorkItem" (PStr "session-1")
              [("workItemURI", PStr "WI-7"); ("title", PStr "Validate login");
               ("description", PStr "...")])
           0%nat []); vm_refl.
Defined.

(** ** The factory: registration, health report, cleanup *)

Section FactoryMore.
Context {Obj : Type}.
Variable ops : AdapterOps Obj.

Lemma dict_lookup_not_in {V : Type} (d : list (string * V)) (key : string) :
  key ∉ d.*1 -> dict_lookup d key = None.
Proof.
induction d as [|[k v] d IH]; intros Hnot; cbn [dict_lookup]; [done|].
cbn [fmap list_fmap fst] in Hnot. apply not_elem_of_cons in Hnot as [Hne Hd].
destruct (String.eqb_spec k key) as [->|_]; [done|]. by apply IH.
Qed.

(** One block of [_initialize_adapters] on a factory that does not hold the
    tool yet. *)
Lemma initialize_adapter_keys alm_type (f : ALMFactory Obj) :
  alm_type ∉ (adapters f).*1 ->
  configurations (initialize_adapter ops alm_type f).2 = configurations f /\
  ((initialize_adapter ops alm_type f).1 = Ret tt ->
   (adapters (initialize_adapter ops alm_type f).2).*1
   = (adapters f).*1
     ++ (if decide (is_Some (configurations f !! alm_type))
         then [alm_type] else [])) /\
  (forall e, (initialize_adapter ops alm_type f).1 = Raise e ->
     (initialize_adapter ops alm_type f).2 = f /\
     is_Some (configurations f !! alm_type)).
Proof.
intros Hfresh. unfold initialize_adapter.
destruct (configurations f !! alm_type) as [config|] eqn:Hcfg.
- rewrite decide_True by eauto.
  destruct (construct ops alm_type config) as [adapter|e];
    [|cbn; split; [done|split; [done|intros e' _; eauto]]].
  destruct (initialize ops adapter) as [[b|e] adapter'];
    [|cbn; split; [done|split; [done|intros e' _; eauto]]].
  cbn [fst snd configurations adapters]. split; [done|]. split; [|done].
  intros _. clear -Hfresh. induction (adapters f) as [|[k v] d IH]; [done|].
  cbn [fmap list_fmap fst] in Hfresh.
  apply not_elem_of_cons in Hfresh as [Hne Hd].
  cbn [dict_set]. destruct (String.eqb_spec k alm_type) as [->|_]; [done|].
  cbn [fmap list_fmap fst app]. f_equal. by apply IH.
- rewrite decide_False by (by intros [? ?]).
  cbn. rewrite app_nil_r. split; [done|]. split; [done|]. done.
Qed.
End FactoryMore.

Lemma configured_tools_unfold (cfgs : gmap string (gmap string pyval)) :
  configured_tools cfgs
  = (if decide (is_Some (cfgs !! "jira")) then ["jira"] else [])
    ++ (if decide (is_Some (cfgs !! "azure_devops"))
        then ["azure_devops"] else [])
    ++ (if decide (is_Some (cfgs !! "polarion")) then ["polarion"] else []).
Proof.
unfold configured_tools, known_tools.
rewrite !filter_cons, filter_nil. by repeat case_decide.
Qed.

(** X13: starting from an empty registry, [_initialize_adapters] keeps the
    configurations as they are and registers adapters only for tools that
    have one, in the order jira, azure_devops, polarion: all of them when
    it returns, the first ones when a constructor or an [initialize]
    raises.  So [test_connection] for a tool without configuration always
    answers with the adapter-not-available error and changes nothing. *)
Theorem initialize_adapters_registers_configured :
  forall (Obj : Type) (ops : AdapterOps Obj)
         (cfgs : gmap string (gmap string pyval)),
    configurations (_initialize_adapters ops (mkFactory cfgs [])).2 = cfgs /\
    (adapters (_initialize_adapters ops (mkFactory cfgs [])).2).*1
      `prefix_of` configured_tools cfgs /\
    ((_initialize_adapters ops (mkFactory cfgs [])).1 = Ret tt ->
     (adapters (_initialize_adapters ops (mkFactory cfgs [])).2).*1
     = configured_tools cfgs) /\
    (forall alm_type, cfgs !! lower alm_type = None ->
       factory_test_connection ops
         (_initialize_adapters ops (mkFactory cfgs [])).2 alm_type
       = (Ret (adapter_not_available alm_type),
          (_initialize_adapters ops (mkFactory cfgs [])).2)).
Proof.
intros Obj ops cfgs.
assert (Hmain :
  configurations (_initialize_adapters ops (mkFactory cfgs [])).2 = cfgs /\
  (adapters (_initialize_adapters ops (mkFactory cfgs [])).2).*1
    `prefix_of` configured_tools cfgs /\
  ((_initialize_adapters ops (mkFactory cfgs [])).1 = Ret tt ->
   (adapters (_initialize_adapters ops (mkFactory cfgs [])).2).*1
   = configured_tools cfgs)).
{ rewrite configured_tools_unfold. unfold _initialize_adapters.
  destruct (initialize_adapter_keys ops "jira" (mkFactory cfgs []))
    as (Hc1 & Hk1 & He1); [cbn; apply not_elem_of_nil|].
  destruct (initialize_adapter ops "jira" (mkFactory cfgs []))
    as [[[]|e1] f1]; cbn [fst snd configurations adapters] in *.
  2:{ destruct (He1 e1 eq_refl) as [-> _]. cbn.
      split; [done|]. split; [apply prefix_nil|done]. }
  specialize (Hk1 eq_refl). cbn [fmap list_fmap app] in Hk1.
  destruct (initialize_adapter_keys ops "azure_devops" f1)
    as (Hc2 & Hk2 & He2).
  { rewrite Hk1. case_decide; [|apply not_elem_of_nil].
    apply not_elem_of_cons. split; [done|apply not_elem_of_nil]. }
  rewrite Hc1 in Hk2, He2.
  destruct (initialize_adapter ops "azure_devops" f1)
    as [[[]|e2] f2]; cbn [fst snd] in *.
  2:{ destruct (He2 e2 eq_refl) as [-> _]. rewrite Hk1.
      split; [done|]. split; [by apply prefix_app_r|done]. }
  specialize (Hk2 eq_refl). rewrite Hk1 in Hk2.
  destruct (initialize_adapter_keys ops "polarion" f2)
    as (Hc3 & Hk3 & He3).
  { rewrite Hk2. repeat case_decide; cbn [app];
      repeat (apply not_elem_of_cons; split; [done|]);
      apply not_elem_of_nil. }
  rewrite Hc2, Hc1 in Hk3, He3, Hc3.
  destruct (initialize_adapter ops "polarion" f2)
    as [[[]|e3] f3]; cbn [fst snd] in *.
  2:{ destruct (He3 e3 eq_refl) as [-> _]. rewrite Hk2, Hc2, Hc1.
      split; [done|]. split; [|done].
      rewrite app_assoc. by apply prefix_app_r. }
  specialize (Hk3 eq_refl). rewrite Hk2 in Hk3.
  split; [done|]. rewrite Hk3, <- app_assoc. split; [done|done]. }
destruct Hmain as (Hcfg & Hprefix & Hall).
split; [exact Hcfg|]. split; [exact Hprefix|]. split; [exact Hall|].
intros alm_type Hnone.
unfold factory_test_connection, get_adapter.
rewrite dict_lookup_not_in; [done|].
intros Hin.
assert (Hconf : lower alm_type ∈ configured_tools cfgs).
{ destruct Hprefix as [rest ->]. apply elem_of_app. by left. }
unfold configured_tools in Hconf. apply list_elem_of_filter in Hconf as [[c Hc] _].
congruence.
Qed.

Lemma initialize_adapters_registers_configured_witness :
  factory_test_connection stub_ops
    (_initialize_adapters stub_ops
       (mkFactory {["jira" := good_config]} [])).2 "Polarion"
  = (Ret (adapter_not_available "Polarion"),
     (_initialize_adapters stub_ops
        (mkFactory {["jira" := good_config]} [])).2).
Proof.
apply (initialize_adapters_registers_configured stub_adapter stub_ops
         {["jira" := good_config]}).
vm_refl.
Defined.

Section HealthReport.
Context {Obj : Type}.
Variable ops : AdapterOps Obj.

Lemma health_step_entry alm_type adapter hs :
  adapters_health (health_step ops alm_type adapter hs)
  = <[alm_type := health_entry ops adapter]> (adapters_health hs).
Proof.
unfold health_step, health_entry.
by destruct (health_check ops adapter).1.
Qed.

Lemma health_loop_other items : forall hs k,
  k ∉ items.*1 ->
  adapters_health (health_loop ops items hs) !! k = adapters_health hs !! k.
Proof.
induction items as [|[alm_type adapter] items IH]; intros hs k Hnot;
  cbn [health_loop]; [done|].
cbn [fmap list_fmap fst] in Hnot. apply not_elem_of_cons in Hnot as [Hne Hk].
rewrite IH by done. rewrite health_step_entry.
by apply lookup_insert_ne.
Qed.

Lemma health_loop_entry items : forall hs k adapter,
  NoDup items.*1 -> (k, adapter) ∈ items ->
  adapters_health (health_loop ops items hs) !! k
  = Some (health_entry ops adapter).
Proof.
induction items as [|[alm_type a] items IH]; intros hs k adapter Hnodup Hin;
  [by apply elem_of_nil in Hin|].
cbn [fmap list_fmap fst] in Hnodup. apply NoDup_cons in Hnodup as [Hfresh Hnd].
cbn [health_loop]. apply elem_of_cons in Hin as [Heq|Hin].
- injection Heq as -> ->. rewrite health_loop_other by done.
  rewrite health_step_entry. apply lookup_insert_eq.
- by apply IH.
Qed.
End HealthReport.

(** X14: the report of [get_health_status] holds, for every registered
    adapter, what that adapter's [health_check] returned, or
    [{"healthy": False, "error": str(e)}] when it raised [e]; it holds no
    entry for any other name. *)
Theorem get_health_status_entries :
  forall (Obj : Type) (ops : AdapterOps Obj) (f : ALMFactory Obj)
         (hs : health_status),
    NoDup (adapters f).*1 ->
    get_health_status ops f = Ret hs ->
    (forall alm_type adapter, (alm_type, adapter) ∈ adapters f ->
       adapters_health hs !! alm_type = Some (health_entry ops adapter)) /\
    (forall alm_type, alm_type ∉ (adapters f).*1 ->
       adapters_health hs !! alm_type = None).
Proof.
intros Obj ops f hs Hnodup Hrun. unfold get_health_status in Hrun.
injection Hrun as <-. split.
- intros alm_type adapter Hin. by apply health_loop_entry.
- intros alm_type Hnot. rewrite health_loop_other by done. apply lookup_empty.
Qed.

Lemma get_health_status_entries_witness :
  exists hs, get_health_status stub_ops stub_factory = Ret hs /\
    adapters_health hs !! "polarion" = Some {["healthy" := PBool false]} /\
    adapters_health hs !! "azure_devops" = None.
Proof.
assert (Hnodup : NoDup (adapters stub_factory).*1).
{ unfold stub_factory. cbn. apply NoDup_cons. split.
  - apply not_elem_of_cons. split; [done|apply not_elem_of_nil].
  - apply NoDup_singleton. }
eexists. split; [reflexivity|].
destruct (get_health_status_entries stub_adapter stub_ops stub_factory _
            Hnodup eq_refl) as [Hentries Hnone].
split.
- apply (Hentries "polarion" (mkStub "polarion" bad_config false)).
  unfold stub_factory. cbn [adapters].
  apply list_elem_of_further, list_elem_of_here.
- apply Hnone. unfold stub_factory. cbn.
  apply not_elem_of_cons. split; [done|].
  apply not_elem_of_cons. split; [done|apply not_elem_of_nil].
Defined.

(** The loop of [cleanup] goes through all the adapters: the trace grows
    by their names, the world is what their [cleanup()] calls make of it
    one after the other, and the log has an outcome for each. *)
Lemma cleanup_loop_run {Obj W} (adapter_cleanup : Obj -> W -> res unit * W) :
  forall (items : list (string * Obj)) (st : W * list string),
    (cleanup_loop adapter_cleanup items st).2
    = (fold_left (fun w item => (adapter_cleanup item.2 w).2) items st.1,
       st.2 ++ items.*1) /\
    (cleanup_loop adapter_cleanup items st).1.*1 = items.*1.
Proof.
induction items as [|[alm_type adapter] rest IH]; intros [w trace].
- cbn. by rewrite app_nil_r.
- cbn [cleanup_loop]. unfold remote. cbn [fst snd].
  destruct (adapter_cleanup adapter w) as [r w1] eqn:Hcleanup.
  destruct (IH (w1, trace ++ [alm_type])) as [Hst Hlog].
  destruct (cleanup_loop adapter_cleanup rest (w1, trace ++ [alm_type]))
    as [log st2].
  cbn [fst snd] in *. split.
  + rewrite Hst. cbn [fold_left fst snd fmap list_fmap].
    rewrite Hcleanup. cbn [snd]. by rewrite <- app_assoc.
  + cbn [fmap list_fmap fst]. by rewrite Hlog.
Qed.

(** X15: [cleanup] awaits the [cleanup()] of every registered adapter
    exactly once, in registration order, whatever the earlier ones did (an
    adapter whose [cleanup()] raises does not keep the later ones from
    being cleaned), and leaves the factory empty: from then on
    [test_connection] answers adapter-not-available for every name,
    [get_available_adapters] returns the empty dictionary,
    [get_health_status] reports overall health with no entry, and
    initializing again registers nothing. *)
Theorem factory_cleanup_empties :
  forall (Obj W : Type) (ops : AdapterOps Obj)
         (adapter_cleanup : Obj -> W -> res unit * W) (f : ALMFactory Obj)
         (st : W * list string),
    (factory_cleanup adapter_cleanup f st).2.2 = st.2 ++ (adapters f).*1 /\
    (factory_cleanup adapter_cleanup f st).2.1
    = fold_left (fun w item => (adapter_cleanup item.2 w).2)
                (adapters f) st.1 /\
    (factory_cleanup adapter_cleanup f st).1.1.*1 = (adapters f).*1 /\
    adapters (factory_cleanup adapter_cleanup f st).1.2 = [] /\
    configurations (factory_cleanup adapter_cleanup f st).1.2 = ∅ /\
    (forall alm_type,
       factory_test_connection ops (factory_cleanup adapter_cleanup f st).1.2
         alm_type
       = (Ret (adapter_not_available alm_type),
          (factory_cleanup adapter_cleanup f st).1.2)) /\
    get_available_adapters ops (factory_cleanup adapter_cleanup f st).1.2
    = Ret [] /\
    get_health_status ops (factory_cleanup adapter_cleanup f st).1.2
    = Ret (mkHealth true ∅) /\
    (_initialize_adapters ops (factory_cleanup adapter_cleanup f st).1.2).2
    = (factory_cleanup adapter_cleanup f st).1.2.
Proof.
intros Obj W ops adapter_cleanup f st. unfold factory_cleanup.
destruct (cleanup_loop_run adapter_cleanup (adapters f) st) as [Hst Hlog].
destruct (cleanup_loop adapter_cleanup (adapters f) st) as [log st1].
cbn [fst snd] in *. rewrite Hst. cbn [fst snd].
repeat split; try reflexivity. exact Hlog.
Qed.

(** ** Polarion: the identifier of a created work item *)

Lemma last_segment_from_app (a b : string) : forall cur,
  Polarion.last_segment_from (a +:+ b) cur
  = Polarion.last_segment_from b (Polarion.last_segment_from a cur).
Proof.
induction a as [|c a IH]; intros cur; [reflexivity|].
rewrite append_cons. cbn [Polarion.last_segment_from].
destruct (nat_of_ascii c =? 47)%nat; apply IH.
Qed.

Lemma last_segment_from_no_slash (s : string) : forall cur,
  no_slash s = true -> Polarion.last_segment_from s cur = cur +:+ s.
Proof.
induction s as [|c s IH]; intros cur Hs.
- cbn. by rewrite append_empty_r.
- cbn [no_slash] in Hs. apply andb_prop in Hs as [Hc Hs].
  cbn [Polarion.last_segment_from].
  destruct (nat_of_ascii c =? 47)%nat; [discriminate|].
  rewrite IH by done. apply append_snoc.
Qed.

(** X16: the work item id Polarion's create path reports is the part of
    the returned URI after its last ["/"]: the whole URI when it holds no
    ["/"], and [None] when the URI is empty or missing. *)
Theorem polarion_work_item_id_of_uri :
  (forall prefix id : string,
     no_slash id = true ->
     Polarion.work_item_id_of (PStr (prefix +:+ String "/" id)) = PStr id) /\
  (forall id : string,
     no_slash id = true -> id <> EmptyString ->
     Polarion.work_item_id_of (PStr id) = PStr id) /\
  Polarion.work_item_id_of (PStr EmptyString) = PNone /\
  Polarion.work_item_id_of PNone = PNone.
Proof.
split; [|split; [|split]]; try reflexivity.
- intros prefix id Hid. unfold Polarion.work_item_id_of.
  assert (Hne : truthy (PStr (prefix +:+ String "/" id)) = true).
  { by destruct prefix. }
  rewrite Hne. f_equal. unfold Polarion.last_segment.
  rewrite last_segment_from_app.
  change (Polarion.last_segment_from (String "/" id) ?c)
    with (Polarion.last_segment_from id EmptyString).
  by rewrite last_segment_from_no_slash.
- intros id Hid Hne. unfold Polarion.work_item_id_of.
  assert (Ht : truthy (PStr id) = true) by (by destruct id).
  rewrite Ht. f_equal. unfold Polarion.last_segment.
  by rewrite last_segment_from_no_slash.
Qed.

Lemma polarion_work_item_id_of_uri_witness :
  Polarion.work_item_id_of
    (PStr ("subterra:data-service:objects:/default" +:+ String "/" "WI-7"))
  = PStr "WI-7".
Proof.
apply (proj1 polarion_work_item_id_of_uri). reflexivity.
Defined.

(** ** Jira: connecting *)

Lemma success_flag_error (adapter_name msg : string) :
  truthy (dict_get (format_error_response adapter_name msg) "success" PNone)
  = false.
Proof.
unfold dict_get, format_error_response. by rewrite lookup_insert_eq.
Qed.

Lemma success_flag_ok (adapter_name : string) (data : envelope) :
  data !! "success" = None ->
  truthy (dict_get (format_success_response adapter_name data) "success" PNone)
  = true.
Proof.
intros Hdata. unfold dict_get, format_success_response.
destruct (decide (data = ∅)).
- by rewrite lookup_insert_eq.
- rewrite lookup_union_r by done. by rewrite lookup_insert_eq.
Qed.

Section JiraConnect.
Context {W : Type}.

(** The connection test with a client set: one [server_info] call, whose
    outcome decides the response. *)
Lemma jira_test_connection_run (a : JiraConnection.Adapter W) client st :
  JiraConnection.jira_client a = Some client ->
  exists response,
    JiraConnection.test_connection a st
    = (Ret response,
       ((JiraConnection.server_info client st.1).2,
        st.2 ++ [JiraConnection.CallServerInfo])) /\
    truthy (dict_get response "success" PNone)
    = is_ret (JiraConnection.server_info client st.1).1.
Proof.
intros Hclient.
unfold JiraConnection.test_connection, catch_all, catch_class, mbind, remote,
  mret.
rewrite Hclient.
destruct (JiraConnection.server_info client st.1) as [[info|e] w1];
  cbn [fst snd is_ret].
- eexists. split; [reflexivity|]. apply success_flag_ok.
  rewrite lookup_insert_ne by done. by apply lookup_singleton_ne.
- destruct (decide (exn_cls e = JIRAError));
    (eexists; split; [reflexivity|apply success_flag_error]).
Qed.
End JiraConnect.

(** X17: Jira's [initialize].  With a required field missing or empty it
    returns false at once: no connection is attempted and the adapter is
    left as it was.  It returns true exactly when the configuration is
    valid, the client constructor returns and the [server_info] call of
    the connection test returns, and then the adapter is marked
    initialized with the client set.  When the constructor returns but
    the connection test fails, it returns false and leaves the client
    set, the adapter not marked initialized.  The configuration is never
    changed. *)
Theorem jira_initialize_spec :
  forall (W : Type) (connect : JiraConnection.Connect W)
         (a : JiraConnection.Adapter W) (st : W * list JiraConnection.call),
    JiraConnection.config (JiraConnection.initialize connect a st).1.2
      = JiraConnection.config a /\
    (validate_config (JiraConnection.config a)
                     JiraConnection.required_fields = false ->
     JiraConnection.initialize connect a st = ((false, a), st)) /\
    ((JiraConnection.initialize connect a st).1.1 = true ->
     JiraConnection.initialized
       (JiraConnection.initialize connect a st).1.2 = true /\
     is_Some (JiraConnection.jira_client
                (JiraConnection.initialize connect a st).1.2)) /\
    ((JiraConnection.initialize connect a st).1.1 = false ->
     JiraConnection.initialized
       (JiraConnection.initialize connect a st).1.2
     = JiraConnection.initialized a) /\
    (forall server username api_token client w1,
       validate_config (JiraConnection.config a)
                       JiraConnection.required_fields = true ->
       JiraConnection.config a !! "server" = Some server ->
       JiraConnection.config a !! "username" = Some username ->
       JiraConnection.config a !! "api_token" = Some api_token ->
       connect {["server" := server;
                 "verify" := dict_get (JiraConnection.config a) "verify_ssl"
                                      (PBool true)]}
               username api_token st.1 = (Ret client, w1) ->
       (JiraConnection.initialize connect a st).1.1
         = is_ret (JiraConnection.server_info client w1).1 /\
       JiraConnection.jira_client
         (JiraConnection.initialize connect a st).1.2 = Some client).
Proof.
intros W connect a st.
unfold JiraConnection.initialize.
destruct (validate_config (JiraConnection.config a)
            JiraConnection.required_fields) eqn:Hvalid; cbn [negb].
2:{ repeat split; try done; intros; simplify_eq. }
destruct (JiraConnection.config a !! "server") as [server|] eqn:Hserver.
2:{ repeat split; try done; intros; simplify_eq. }
destruct (JiraConnection.config a !! "username") as [username|] eqn:Huser.
2:{ repeat split; try done; intros; simplify_eq. }
destruct (JiraConnection.config a !! "api_token") as [api_token|] eqn:Htok.
2:{ repeat split; try done; intros; simplify_eq. }
unfold remote.
destruct (connect _ username api_token st.1) as [[client|e] w1] eqn:Hconn.
2:{ cbn. repeat split; try done; intros; simplify_eq; congruence. }
cbn [fst snd].
destruct (jira_test_connection_run
            (JiraConnection.mkAdapter (JiraConnection.config a) (Some client)
               (JiraConnection.initialized a))
            client
            (w1, st.2 ++ [JiraConnection.CallConnect
                            {["server" := server;
                              "verify" := dict_get (JiraConnection.config a)
                                            "verify_ssl" (PBool true)]}
                            username api_token]) eq_refl)
  as (response & Hrun & Hflag).
rewrite Hrun. cbn [fst snd] in *. rewrite Hflag.
destruct (JiraConnection.server_info client w1) as [[info|e] w2] eqn:Hinfo;
  cbn [fst snd is_ret];
  (repeat split; try done; try (by eexists));
  simplify_eq;
  match goal with
  | Hc : connect _ _ _ _ = (Ret ?c, _) |- _ =>
    rewrite Hconn in Hc; simplify_eq
  end;
  by rewrite ?Hinfo.
Qed.

Lemma jira_initialize_spec_witness :
  validate_config jira_config JiraConnection.required_fields = true /\
  (JiraConnection.initialize refusing_connect fresh_jira_adapter (0%nat, [])).1.1
    = false /\
  JiraConnection.jira_client
    (JiraConnection.initialize refusing_connect fresh_jira_adapter
       (0%nat, [])).1.2
    = Some refusing_session.
Proof.
split; [vm_refl|].
apply (proj2 (proj2 (proj2 (proj2
         (jira_initialize_spec nat refusing_connect fresh_jira_adapter
            (0%nat, [])))))
         (PStr "https://jira.example.com") (PStr "alice") (PStr "secret")
         refusing_session 1%nat);
  vm_refl.
Defined.

(** X18: Jira's [health_check] never raises.  Without a client it makes
    no request and reports unhealthy.  With a client it makes exactly one
    [current_user] request, and reports healthy exactly when that request
    returns and the configuration has a "server" entry: a failed request
    or a missing entry is reported as unhealthy, not raised. *)
Theorem jira_health_check_spec :
  forall (W : Type) (a : JiraConnection.Adapter W)
         (st : W * list JiraConnection.call),
    exists report,
      (JiraConnection.health_check a st).1 = Ret report /\
      match JiraConnection.jira_client a with
      | None =>
        (JiraConnection.health_check a st).2 = st /\
        truthy (dict_get report "healthy" PNone) = false
      | Some client =>
        (JiraConnection.health_check a st).2
        = ((JiraConnection.current_user client st.1).2,
           st.2 ++ [JiraConnection.CallCurrentUser]) /\
        truthy (dict_get report "healthy" PNone)
        = is_ret (JiraConnection.current_user client st.1).1
          && bool_decide (is_Some (JiraConnection.config a !! "server"))
      end.
Proof.
intros W a st.
unfold JiraConnection.health_check, catch_all, mbind, remote, mret, mraise.
destruct (JiraConnection.jira_client a) as [client|].
- destruct (JiraConnection.current_user client st.1) as [[user|e] w1];
    cbn [fst snd is_ret andb].
  + destruct (JiraConnection.config a !! "server") as [server|];
      (eexists; split; [reflexivity|split; [reflexivity|]]);
      unfold dict_get; by rewrite lookup_insert_eq.
  + eexists; split; [reflexivity|split; [reflexivity|]].
    unfold dict_get; by rewrite lookup_insert_eq.
- eexists; split; [reflexivity|split; [reflexivity|]].
  unfold dict_get; by rewrite lookup_insert_eq.
Qed.
